(** * The vaccination dashboard script [tugas.py]

    A shallow embedding of the load / filter / aggregate / render pipeline of
    the Streamlit script, and the properties of its three derived views.

    The script is a sequence of calls into pandas and Streamlit.  Each call is
    given the meaning the library documents for it:
    - a data frame is the list of its rows, in row order;
    - a missing cell (NaN, NaT) is [None];
    - numeric cells are exact integers (the file holds counts), statistics over
      them are exact rationals;
    - a time stamp is a whole number of days since 1970-01-01 (the file holds
      calendar dates, the date picker returns calendar dates). *)

From Stdlib Require Import ZArith List String Ascii Bool Lia.
From Stdlib Require Import Permutation Sorted QArith.
Import ListNotations.
Local Open Scope Z_scope.

Set Implicit Arguments.

(** ** Calendar dates and time stamps *)

Module Calendar.

(** A [datetime.date], as the date picker returns it. *)
Record date : Type := mkdate { year : Z; month : Z; day : Z }.

Definition is_leap (y : Z) : bool :=
  ((y mod 4 =? 0) && negb (y mod 100 =? 0)) || (y mod 400 =? 0).

Definition days_in_month (y m : Z) : Z :=
  if m =? 2 then (if is_leap y then 29 else 28)
  else if (m =? 4) || (m =? 6) || (m =? 9) || (m =? 11) then 30
  else 31.

(** Days between 1970-01-01 and the civil date [y]-[m]-[d] of the proleptic
    Gregorian calendar. *)
Definition days_from_civil (y m d : Z) : Z :=
  let y' := if m <=? 2 then y - 1 else y in
  let era := y' / 400 in
  let yoe := y' - era * 400 in
  let mp := (m + 9) mod 12 in
  let doy := (153 * mp + 2) / 5 + d - 1 in
  let doe := yoe * 365 + yoe / 4 - yoe / 100 + doy in
  era * 146097 + doe - 719468.

(** [pd.to_datetime(d)] for a [datetime.date]: midnight of that day. *)
Definition timestamp_of_date (d : date) : Z :=
  days_from_civil (year d) (month d) (day d).

Definition digit (a : ascii) : option Z :=
  let n := Z.of_nat (nat_of_ascii a) in
  if (48 <=? n) && (n <=? 57) then Some (n - 48) else None.

Definition is_dash (a : ascii) : bool := Ascii.eqb a "-"%char.

Definition number (ds : list ascii) : option Z :=
  fold_left
    (fun acc a =>
       match acc, digit a with
       | Some n, Some k => Some (10 * n + k)
       | _, _ => None
       end)
    ds (Some 0).

(** The ISO form [YYYY-MM-DD] of a date cell; any other text is refused. *)
Definition parse_iso (s : string) : option date :=
  match list_ascii_of_string s with
  | [y1; y2; y3; y4; s1; m1; m2; s2; d1; d2] =>
      if is_dash s1 && is_dash s2 then
        match number [y1; y2; y3; y4], number [m1; m2], number [d1; d2] with
        | Some y, Some m, Some d =>
            if (1 <=? m) && (m <=? 12) && (1 <=? d) && (d <=? days_in_month y m)
            then Some (mkdate y m d)
            else None
        | _, _, _ => None
        end
      else None
  | _ => None
  end.

End Calendar.

(** ** Records and data frames *)

(** A line of [country_vaccinations.csv] as [pd.read_csv] returns it: the date
    is still text, an empty cell is missing. *)
Record RawRecord : Type := mkRaw {
  raw_country : string;
  raw_date : option string;
  raw_total_vaccinations : option Z;
  raw_people_vaccinated : option Z;
  raw_people_fully_vaccinated : option Z;
  raw_daily_vaccinations : option Z
}.

(** A row of [df] once [df["date"]] holds time stamps; [date r = None] is
    NaT. *)
Record Row : Type := mkRow {
  country : string;
  date : option Z;
  total_vaccinations : option Z;
  people_vaccinated : option Z;
  people_fully_vaccinated : option Z;
  daily_vaccinations : option Z
}.

Definition DataFrame : Type := list Row.

(** A row of a frame restricted to [num_cols]. *)
Record NumRow : Type := mkNum {
  n_total_vaccinations : option Z;
  n_people_vaccinated : option Z;
  n_people_fully_vaccinated : option Z;
  n_daily_vaccinations : option Z
}.

Definition Row_eq_dec (a b : Row) : {a = b} + {a <> b}.
Proof.
  decide equality; try apply string_dec;
    decide equality; apply Z.eq_dec.
Defined.

Definition notna {A : Type} (x : option A) : bool :=
  match x with Some _ => true | None => false end.

(** ** The filter (lines 62-65) *)

(** [df["country"].isin(countries)], row by row. *)
Definition isin (countries : list string) (c : string) : bool :=
  existsb (String.eqb c) countries.

(** [df["date"].between(left, right)], row by row: both ends included, a
    comparison with NaT is false. *)
Definition between (left right : Z) (d : option Z) : bool :=
  match d with
  | Some t => (left <=? t) && (t <=? right)
  | None => false
  end.

(** [df[mask]]: the rows whose mask entry is true, in row order. *)
Definition getitem_mask (mask : Row -> bool) (df : DataFrame) : DataFrame :=
  filter mask df.

Definition filter_mask (countries : list string) (start stop : Z) (r : Row) : bool :=
  isin countries (country r) && between start stop (date r).

Definition filtered_df (df : DataFrame) (countries : list string)
    (start stop : Z) : DataFrame :=
  getitem_mask (filter_mask countries start stop) df.

(** ** The numeric view (lines 72-78) *)

(** [filtered_df[num_cols]] *)
Definition getitem_num_cols (df : DataFrame) : list NumRow :=
  map (fun r => mkNum (total_vaccinations r) (people_vaccinated r)
                      (people_fully_vaccinated r) (daily_vaccinations r)) df.

Definition complete (n : NumRow) : bool :=
  notna (n_total_vaccinations n) && notna (n_people_vaccinated n) &&
  notna (n_people_fully_vaccinated n) && notna (n_daily_vaccinations n).

(** [.dropna()] with its defaults: [axis=0], [how="any"]. *)
Definition dropna (f : list NumRow) : list NumRow := filter complete f.

Definition clean_df (fv : DataFrame) : list NumRow :=
  dropna (getitem_num_cols fv).

(** ** Distinct and sorted strings (lines 50-51, 94) *)

(** [unique()]: the distinct values in order of first appearance. *)
Definition unique (l : list string) : list string :=
  fold_left (fun seen x => if existsb (String.eqb x) seen then seen else seen ++ [x])
            l [].

Fixpoint insert_string (s : string) (l : list string) : list string :=
  match l with
  | [] => [s]
  | h :: t => if (s <=? h)%string then s :: l else h :: insert_string s t
  end.

(** [sorted(...)] on strings. *)
Definition sorted (l : list string) : list string :=
  fold_right insert_string [] l.

(** ** Latest row per country (lines 81-86) *)

(** The sort key of [sort_values("date")]: ascending, NaT after every time
    stamp ([na_position="last"]). *)
Definition date_leb (a b : Row) : bool :=
  match date a, date b with
  | Some x, Some y => x <=? y
  | Some _, None => true
  | None, Some _ => false
  | None, None => true
  end.

Definition date_le (a b : Row) : Prop := date_leb a b = true.

(** What [sort_values] promises with its default [kind]: the rows of the
    frame, rearranged so that the keys ascend.  The default sort is not a
    stable one, so nothing is promised about rows of equal key. *)
Definition sorts_by_date (sort : DataFrame -> DataFrame) : Prop :=
  forall l, Permutation l (sort l) /\ Sorted date_le (sort l).

Fixpoint insert_by_date (r : Row) (l : DataFrame) : DataFrame :=
  match l with
  | [] => [r]
  | h :: t => if date_leb r h then r :: l else h :: insert_by_date r t
  end.

(** The instance of [sort_values("date")] the script is run with: it leaves
    rows of equal key in their original order. *)
Definition sort_values (l : DataFrame) : DataFrame :=
  fold_right insert_by_date [] l.

(** [GroupBy.last()] takes, column by column, the last entry of the group
    that is not missing. *)
Definition keep_last {A : Type} (acc x : option A) : option A :=
  match x with Some _ => x | None => acc end.

Definition blank (c : string) : Row := mkRow c None None None None None.

Definition merge_last (a r : Row) : Row :=
  mkRow (country a)
        (keep_last (date a) (date r))
        (keep_last (total_vaccinations a) (total_vaccinations r))
        (keep_last (people_vaccinated a) (people_vaccinated r))
        (keep_last (people_fully_vaccinated a) (people_fully_vaccinated r))
        (keep_last (daily_vaccinations a) (daily_vaccinations r)).

(** One pass over the rows: the result line of the row's group takes every
    cell of the row that is present; a group met for the first time starts
    from a line of missing cells. *)
Fixpoint upsert (r : Row) (tbl : list Row) : list Row :=
  match tbl with
  | [] => [merge_last (blank (country r)) r]
  | a :: t =>
      if (country r =? country a)%string then merge_last a r :: t
      else a :: upsert r t
  end.

Definition group_last (rows : DataFrame) : list Row :=
  fold_left (fun tbl r => upsert r tbl) rows [].

(** [groupby] has [sort=True]: the result lines are in ascending key order. *)
Fixpoint insert_by_key (a : Row) (l : list Row) : list Row :=
  match l with
  | [] => [a]
  | h :: t =>
      if (country a <=? country h)%string then a :: l
      else h :: insert_by_key a t
  end.

Definition sort_index (tbl : list Row) : list Row :=
  fold_right insert_by_key [] tbl.

(** [reset_index()] turns the group key back into the [country] column. *)
Definition reset_index (tbl : list Row) : DataFrame := tbl.

Definition latest_by (sort : DataFrame -> DataFrame) (fv : DataFrame) : DataFrame :=
  reset_index (sort_index (group_last (sort fv))).

Definition latest (fv : DataFrame) : DataFrame := latest_by sort_values fv.

(** ** Reference algorithms, written from the specification *)

(** The rows of a country. *)
Definition group_of (c : string) (rows : DataFrame) : DataFrame :=
  filter (fun r => (country r =? c)%string) rows.

(** The specification's latest-per-country: sort ascending by date, group by
    country, take the entire last row of each group. *)
Definition reference_latest (fv : DataFrame) : DataFrame :=
  let s := sort_values fv in
  flat_map (fun c => match rev (group_of c s) with
                     | r :: _ => [r]
                     | [] => []
                     end)
           (sorted (unique (map country s))).

(** The last entry of a column that is not missing. *)
Definition last_valid {A : Type} (col : list (option A)) : option A :=
  List.last (filter notna col) None.

(** The same, with "the entire last row" replaced by "of each column the
    last entry that is not missing". *)
Definition reference_last_valid (sort : DataFrame -> DataFrame) (fv : DataFrame)
  : DataFrame :=
  let s := sort fv in
  map (fun c => let g := group_of c s in
                mkRow c
                      (last_valid (map date g))
                      (last_valid (map total_vaccinations g))
                      (last_valid (map people_vaccinated g))
                      (last_valid (map people_fully_vaccinated g))
                      (last_valid (map daily_vaccinations g)))
      (sorted (unique (map country s))).

(** ** Column statistics (lines 94-97 and 155-158) *)

(** A Python float as far as the script looks at it: NaN or a number. *)
Inductive pyfloat : Type :=
| NaN
| Fin (q : Q).

(** The entries of a column that are present ([skipna=True]). *)
Definition present (col : list (option Z)) : list Z :=
  flat_map (fun x => match x with Some v => [v] | None => [] end) col.

Definition total (l : list Z) : Z := fold_left Z.add l 0.

(** [Series.sum()]: missing entries are skipped, the empty sum is 0. *)
Definition series_sum (col : list (option Z)) : pyfloat :=
  Fin (inject_Z (total (present col))).

(** [Series.mean()]: NaN on a column without entries. *)
Definition series_mean (col : list (option Z)) : pyfloat :=
  match present col with
  | [] => NaN
  | v :: l => Fin (Qmake (total (v :: l)) (Pos.of_nat (List.length (v :: l))))
  end.

Fixpoint insert_Z (x : Z) (l : list Z) : list Z :=
  match l with
  | [] => [x]
  | h :: t => if x <=? h then x :: l else h :: insert_Z x t
  end.

Definition sort_Z (l : list Z) : list Z := fold_right insert_Z [] l.

(** [Series.median()]: the middle entry, or the mean of the two middle
    entries; NaN on a column without entries. *)
Definition series_median (col : list (option Z)) : pyfloat :=
  let s := sort_Z (present col) in
  let n := List.length s in
  match n with
  | O => NaN
  | _ => if Nat.odd n then Fin (inject_Z (nth (Nat.div2 n) s 0))
         else Fin (Qmake (nth (Nat.div2 n - 1) s 0 + nth (Nat.div2 n) s 0) 2)
  end.

Definition series_max (col : list (option Z)) : pyfloat :=
  match present col with
  | [] => NaN
  | v :: l => Fin (inject_Z (fold_left Z.max l v))
  end.

Definition series_min (col : list (option Z)) : pyfloat :=
  match present col with
  | [] => NaN
  | v :: l => Fin (inject_Z (fold_left Z.min l v))
  end.

(** [Series.min()] and [Series.max()] of the date column, NaT on none. *)
Definition date_min (col : list (option Z)) : option Z :=
  match present col with
  | [] => None
  | v :: l => Some (fold_left Z.min l v)
  end.

Definition date_max (col : list (option Z)) : option Z :=
  match present col with
  | [] => None
  | v :: l => Some (fold_left Z.max l v)
  end.

(** [Series.nunique()] *)
Definition nunique (col : list string) : Z := Z.of_nat (List.length (unique col)).

(** [latest[["country", "people_fully_vaccinated"]].dropna()] *)
Definition pie_df (l : DataFrame) : list (string * Z) :=
  flat_map (fun r => match people_fully_vaccinated r with
                     | Some v => [(country r, v)]
                     | None => []
                     end) l.

(** ** The running script: state, failures, user interface *)

Inductive Exn : Type :=
| IndexError     (* a subscript out of range *)
| ValueError     (* [int] of NaN, a date cell that does not parse *)
| TypeError      (* an object of the wrong kind *)
| FileNotFoundError.

(** How a run of the script ends: normally, by [st.stop()], or by an
    exception nobody catches. *)
Inductive Result (A : Type) : Type :=
| Ok (a : A)
| Stopped
| Raised (e : Exn).

Arguments Stopped {A}.
Arguments Raised {A} e.

(** The elements the script sends to the page, texts without their
    pictographs and markup. *)
Inductive Element : Type :=
| st_error (body : string)
| st_warning (body : string)
| st_markdown (body : string)
| st_header (body : string)
| st_subheader (body : string)
| st_sidebar_header (body : string)
| st_multiselect (label : string) (options default : list string)
| st_date_input (label : string) (default : list (option Z))
| st_metric (label : string) (value : Z)
| st_dataframe_describe (data : list NumRow)
| px_line (data : DataFrame)
| px_bar (data : DataFrame)
| px_box (data : list NumRow)
| px_scatter (data : list NumRow)
| px_pie (data : list (string * Z)).

(** The objects the script builds. *)
Inductive Obj : Type :=
| RawFrame (rows : list RawRecord)   (* the frame [read_csv] returns *)
| Frame (rows : DataFrame)
| NumFrame (rows : list NumRow).

Record World : Type := mkWorld {
  file : option (list RawRecord);  (* country_vaccinations.csv, if it is there *)
  cache : option DataFrame;        (* what [st.cache_data] holds for [load_data] *)
  heap : list Obj;                 (* the objects of this run, by address *)
  ui : list Element                (* the page of this run, top to bottom *)
}.

Definition M (A : Type) : Type := World -> Result A * World.

Definition ret {A : Type} (a : A) : M A := fun w => (Ok a, w).

Definition bind {A B : Type} (c : M A) (k : A -> M B) : M B :=
  fun w =>
    match c w with
    | (Ok a, w') => k a w'
    | (Stopped, w') => (Stopped, w')
    | (Raised e, w') => (Raised e, w')
    end.

Notation "x <- c ;; k" := (bind c (fun x => k))
  (at level 61, c at next level, right associativity).
Notation "c ;; k" := (bind c (fun _ => k))
  (at level 61, right associativity).

Definition raise {A : Type} (e : Exn) : M A := fun w => (Raised e, w).

(** [st.stop()] *)
Definition st_stop {A : Type} : M A := fun w => (Stopped, w).

Definition emit (e : Element) : M unit :=
  fun w => (Ok tt, mkWorld (file w) (cache w) (heap w) (ui w ++ [e])).

(** A new object; its address is returned. *)
Definition alloc (o : Obj) : M nat :=
  fun w => (Ok (List.length (heap w)),
            mkWorld (file w) (cache w) (heap w ++ [o]) (ui w)).

Fixpoint update (l : nat) (o : Obj) (h : list Obj) : list Obj :=
  match h, l with
  | [], _ => []
  | _ :: t, O => o :: t
  | x :: t, S l' => x :: update l' o t
  end.

(** The object at an address is replaced in place. *)
Definition store (l : nat) (o : Obj) : M unit :=
  fun w => (Ok tt, mkWorld (file w) (cache w) (update l o (heap w)) (ui w)).

Definition deref (l : nat) : M Obj :=
  fun w => match nth_error (heap w) l with
           | Some o => (Ok o, w)
           | None => (Raised TypeError, w)
           end.

Definition frame (l : nat) : M DataFrame :=
  o <- deref l ;;
  match o with Frame d => ret d | _ => raise TypeError end.

Definition numframe (l : nat) : M (list NumRow) :=
  o <- deref l ;;
  match o with NumFrame d => ret d | _ => raise TypeError end.

Definition rawframe (l : nat) : M (list RawRecord) :=
  o <- deref l ;;
  match o with RawFrame d => ret d | _ => raise TypeError end.

(** A pandas call that builds a new frame from the frame at [l] and leaves
    that one as it is. *)
Definition frame_op (f : DataFrame -> Obj) (l : nat) : M nat :=
  d <- frame l ;; alloc (f d).

Definition numframe_op (f : list NumRow -> Obj) (l : nat) : M nat :=
  d <- numframe l ;; alloc (f d).

(** [seq[i]] on a Python sequence. *)
Definition getitem {A : Type} (s : list A) (i : nat) : M A :=
  match nth_error s i with
  | Some a => ret a
  | None => raise IndexError
  end.

(** [int(x)]: truncation, and a [ValueError] on NaN. *)
Definition python_int (x : pyfloat) : M Z :=
  match x with
  | NaN => raise ValueError
  | Fin q => ret (Z.quot (Qnum q) (Zpos (Qden q)))
  end.

(** ** The loader (lines 18-28) *)

(** [pd.to_datetime] on one cell of the date column: a missing cell becomes
    NaT, a text that is no date raises. *)
Definition to_datetime_cell (c : option string) : M (option Z) :=
  match c with
  | None => ret None
  | Some s =>
      match Calendar.parse_iso s with
      | Some d => ret (Some (Calendar.timestamp_of_date d))
      | None => raise ValueError
      end
  end.

Fixpoint to_datetime (col : list (option string)) : M (list (option Z)) :=
  match col with
  | [] => ret []
  | c :: rest =>
      t <- to_datetime_cell c ;;
      ts <- to_datetime rest ;;
      ret (t :: ts)
  end.

Definition with_date (r : RawRecord) (t : option Z) : Row :=
  mkRow (raw_country r) t (raw_total_vaccinations r) (raw_people_vaccinated r)
        (raw_people_fully_vaccinated r) (raw_daily_vaccinations r).

(** [df["date"] = col]: the frame at [l] is changed in place. *)
Definition setitem_date (l : nat) (col : list (option Z)) : M unit :=
  rows <- rawframe l ;;
  store l (Frame (map (fun p => with_date (fst p) (snd p)) (combine rows col))).

Definition path_exists : M bool :=
  fun w => (Ok (match file w with Some _ => true | None => false end), w).

Definition read_csv : M nat :=
  fun w => match file w with
           | Some rows => alloc (RawFrame rows) w
           | None => (Raised FileNotFoundError, w)
           end.

Definition missing_file_text : string :=
  "File country_vaccinations.csv tidak ditemukan".

(** The body of [load_data]. *)
Definition load_data_body : M nat :=
  there <- path_exists ;;
  (if negb there then emit (st_error missing_file_text) ;; st_stop
   else ret tt) ;;
  df <- read_csv ;;
  rows <- rawframe df ;;
  col <- to_datetime (map raw_date rows) ;;
  setitem_date df col ;;
  ret df.

Definition set_cache (d : DataFrame) : M unit :=
  fun w => (Ok tt, mkWorld (file w) (Some d) (heap w) (ui w)).

(** [@st.cache_data]: the first call that returns stores its value; every
    later call gets a copy of the stored value and the body is not run. *)
Definition cache_data (body : M nat) : M nat :=
  fun w =>
    match cache w with
    | Some d => alloc (Frame d) w
    | None => (l <- body ;; d <- frame l ;; set_cache d ;; ret l) w
    end.

Definition load_data : M nat := cache_data load_data_body.

(** ** The script *)

Record Globals : Type := mkGlobals {
  g_df : nat;
  g_filtered_df : nat;
  g_clean_df : nat;
  g_latest : nat
}.

Definition empty_filter_text : string := "Data kosong, silakan ubah filter".

Definition header_part : M unit :=
  emit (st_markdown "Dashboard Statistik Vaksinasi COVID-19") ;;
  emit (st_markdown "Visualisasi dan statistik deskriptif lengkap data vaksinasi COVID-19") ;;
  emit (st_markdown "---").

(** The two widgets of the side bar.  What the user chose in them is the
    argument of the script. *)
Definition sidebar_part (df : nat) : M unit :=
  emit (st_sidebar_header "Filter Data") ;;
  d <- frame df ;;
  emit (st_multiselect "Pilih Negara (minimal 3 agar grafik jelas)"
          (sorted (unique (map country d)))
          (firstn 5 (unique (map country d)))) ;;
  emit (st_date_input "Rentang Tanggal"
          [date_min (map date d); date_max (map date d)]).

Definition kpi_part (filtered latest : nat) : M unit :=
  emit (st_header "Ringkasan Angka Utama") ;;
  fv <- frame filtered ;;
  emit (st_metric "Jumlah Negara" (nunique (map country fv))) ;;
  l <- frame latest ;;
  tv <- python_int (series_sum (map total_vaccinations l)) ;;
  emit (st_metric "Total Vaksinasi" tv) ;;
  pv <- python_int (series_sum (map people_vaccinated l)) ;;
  emit (st_metric "Sudah Vaksin" pv) ;;
  pfv <- python_int (series_sum (map people_fully_vaccinated l)) ;;
  emit (st_metric "Vaksin Lengkap" pfv) ;;
  emit (st_markdown "---").

Definition tab1 (filtered : nat) : M unit :=
  emit (st_subheader "Tren Vaksinasi Harian") ;;
  fv <- frame filtered ;;
  emit (px_line fv).

Definition tab2 (latest : nat) : M unit :=
  emit (st_subheader "Total Vaksinasi per Negara") ;;
  l <- frame latest ;;
  emit (px_bar l).

Definition tab3 (clean : nat) : M unit :=
  emit (st_subheader "Statistik Deskriptif") ;;
  c <- numframe clean ;;
  emit (st_dataframe_describe c) ;;
  mean <- python_int (series_mean (map n_daily_vaccinations c)) ;;
  emit (st_metric "Mean Harian" mean) ;;
  median <- python_int (series_median (map n_daily_vaccinations c)) ;;
  emit (st_metric "Median Harian" median) ;;
  maxi <- python_int (series_max (map n_daily_vaccinations c)) ;;
  emit (st_metric "Maksimum Harian" maxi) ;;
  mini <- python_int (series_min (map n_daily_vaccinations c)) ;;
  emit (st_metric "Minimum Harian" mini).

Definition tab4 (clean : nat) : M unit :=
  emit (st_subheader "Boxplot Vaksinasi Harian") ;;
  c <- numframe clean ;;
  emit (px_box c).

Definition tab5 (clean : nat) : M unit :=
  emit (st_subheader "Scatter Plot") ;;
  c <- numframe clean ;;
  emit (px_scatter c).

Definition tab6 (latest : nat) : M unit :=
  emit (st_subheader "Pie Chart Proporsi Vaksinasi Lengkap") ;;
  l <- frame latest ;;
  emit (px_pie (pie_df l)).

Definition footer_part : M unit :=
  emit (st_markdown "---") ;;
  emit (st_markdown "Dashboard Statistik Vaksinasi COVID-19 | Streamlit").

(** Lines 62-65: [filtered_df]. *)
Definition filter_part (countries : list string)
    (date_range : list Calendar.date) (df : nat) : M nat :=
  d0 <- getitem date_range 0 ;;
  d1 <- getitem date_range 1 ;;
  frame_op (fun d => Frame (getitem_mask
                              (filter_mask countries
                                 (Calendar.timestamp_of_date d0)
                                 (Calendar.timestamp_of_date d1)) d)) df.

(** Lines 67-69: the guard on an empty view. *)
Definition guard (filtered : nat) : M unit :=
  fv <- frame filtered ;;
  match fv with
  | [] => emit (st_warning empty_filter_text) ;; st_stop
  | _ :: _ => ret tt
  end.

(** Line 78: [clean_df]. *)
Definition clean_part (filtered : nat) : M nat :=
  cols <- frame_op (fun d => NumFrame (getitem_num_cols d)) filtered ;;
  numframe_op (fun d => NumFrame (dropna d)) cols.

(** Lines 81-86: [latest]. *)
Definition latest_part (filtered : nat) : M nat :=
  by_date <- frame_op (fun d => Frame (sort_values d)) filtered ;;
  last <- frame_op (fun d => Frame (sort_index (group_last d))) by_date ;;
  frame_op (fun d => Frame (reset_index d)) last.

(** Lines 88-214: the numbers, the six tabs, the foot. *)
Definition render_part (filtered clean latest : nat) : M unit :=
  kpi_part filtered latest ;;
  tab1 filtered ;;
  tab2 latest ;;
  tab3 clean ;;
  tab4 clean ;;
  tab5 clean ;;
  tab6 latest ;;
  footer_part.

(** The script from line 30 on, [df] being loaded, on what the user chose in
    the side bar. *)
Definition body (countries : list string) (date_range : list Calendar.date)
    (df : nat) : M Globals :=
  header_part ;;
  sidebar_part df ;;
  filtered <- filter_part countries date_range df ;;
  guard filtered ;;
  clean <- clean_part filtered ;;
  latest <- latest_part filtered ;;
  render_part filtered clean latest ;;
  ret (mkGlobals df filtered clean latest).

(** One run of the script, top to bottom. *)
Definition script (countries : list string) (date_range : list Calendar.date)
  : M Globals :=
  df <- load_data ;;
  body countries date_range df.

(** Streamlit runs the script anew on every interaction: the page and the
    objects of the run before are gone, the file and the cache stay. *)
Definition rerun (w : World) : World := mkWorld (file w) (cache w) [] [].

Definition interact (countries : list string) (date_range : list Calendar.date)
    (w : World) : Result Globals * World :=
  script countries date_range (rerun w).

(** What can happen to a server process: a user interaction, or somebody
    replaces or removes the file. *)
Inductive Event : Type :=
| Interaction (countries : list string) (date_range : list Calendar.date)
| FileChange (content : option (list RawRecord)).

Definition step (w : World) (e : Event) : World :=
  match e with
  | Interaction c dr => snd (interact c dr w)
  | FileChange f => mkWorld f (cache w) (heap w) (ui w)
  end.

Definition run (w : World) (es : list Event) : World := fold_left step es w.

(** The views of a finished run, read from its objects. *)
Definition view_frame (w : World) (l : nat) : option DataFrame :=
  match nth_error (heap w) l with
  | Some (Frame d) => Some d
  | _ => None
  end.


(** ** The scenario of the specification *)

Definition scenario_file : list RawRecord :=
  [ mkRaw "A" (Some "2021-01-01"%string) (Some 100) (Some 80) (Some 20) (Some 10);
    mkRaw "A" (Some "2021-01-02"%string) (Some 150) (Some 90) (Some 25) (Some 50);
    mkRaw "B" (Some "2021-01-01"%string) (Some 200) (Some 150) (Some 50) (Some 50) ].

Definition scenario_world : World := mkWorld (Some scenario_file) None [] [].

Definition scenario_range : list Calendar.date :=
  [Calendar.mkdate 2021 1 1; Calendar.mkdate 2021 1 2].

(** The data set of the scenario once loaded. *)
Definition scenario_frame : DataFrame :=
  [ mkRow "A" (Some 18628) (Some 100) (Some 80) (Some 20) (Some 10);
    mkRow "A" (Some 18629) (Some 150) (Some 90) (Some 25) (Some 50);
    mkRow "B" (Some 18628) (Some 200) (Some 150) (Some 50) (Some 50) ].

(** A data set in which the later record of a country reports only part of
    the numbers, and the view that keeps all of it. *)
Definition gap_frame : DataFrame :=
  [ mkRow "A" (Some 18628) (Some 100) (Some 80) (Some 20) (Some 10);
    mkRow "A" (Some 18629) None (Some 90) None (Some 50) ].

Definition gap_view : DataFrame :=
  filtered_df gap_frame ["A"%string] 18628 18629.

(** A view none of whose records reports all four numbers. *)
Definition sparse_frame : DataFrame :=
  [ mkRow "A" (Some 18628) (Some 100) None (Some 20) (Some 10);
    mkRow "A" (Some 18629) (Some 150) (Some 90) None None ].

Definition sparse_world : World := mkWorld None (Some sparse_frame) [] [].

(** ** Auxiliary notions for the proofs *)

(** The result line of a key in a table of result lines. *)
Definition lookup (c : string) (tbl : list Row) : option Row :=
  find (fun a => (country a =? c)%string) tbl.

(** The result line of the group [g] of key [c], column by column. *)
Definition last_valid_row (c : string) (g : DataFrame) : Row :=
  mkRow c
        (last_valid (map date g))
        (last_valid (map total_vaccinations g))
        (last_valid (map people_vaccinated g))
        (last_valid (map people_fully_vaccinated g))
        (last_valid (map daily_vaccinations g)).

(** No cell of the row is missing. *)
Definition full_row (r : Row) : bool :=
  notna (date r) && notna (total_vaccinations r) && notna (people_vaccinated r)
  && notna (people_fully_vaccinated r) && notna (daily_vaccinations r).

(** The four numeric columns of the row are present. *)
Definition numeric_present (r : Row) : bool :=
  notna (total_vaccinations r) && notna (people_vaccinated r)
  && notna (people_fully_vaccinated r) && notna (daily_vaccinations r).

(** The date cells [to_datetime] takes: empty ones and ISO dates. *)
Definition parses (c : option string) : bool :=
  match c with
  | None => true
  | Some s => notna (Calendar.parse_iso s)
  end.

(** The time stamp [to_datetime] makes of such a cell. *)
Definition timestamp_cell (c : option string) : option Z :=
  match c with
  | None => None
  | Some s => option_map Calendar.timestamp_of_date (Calendar.parse_iso s)
  end.

(** The data set a file holds: its lines, dates parsed. *)
Definition loaded (rows : list RawRecord) : DataFrame :=
  map (fun r => with_date r (timestamp_cell (raw_date r))) rows.

(** The data set an interaction works on, if it gets one: the cached one,
    else the one of the file. *)
Definition dataset_of (w : World) : option DataFrame :=
  match cache w with
  | Some d => Some d
  | None =>
      match file w with
      | Some rows =>
          if forallb parses (map raw_date rows) then Some (loaded rows) else None
      | None => None
      end
  end.

(** The two messages of the script. *)
Definition alert (e : Element) : bool :=
  match e with
  | st_error _ | st_warning _ => true
  | _ => false
  end.


(** A computation that looks at the objects and the page only, leaves the
    file and the cache alone, and leaves every object that is there as it
    is: all it does to the heap is to add objects. *)
Definition frame_safe {A : Type} (m : M A) : Prop :=
  forall f c f' c' h u,
  exists r ext u',
    m (mkWorld f c h u) = (r, mkWorld f c (h ++ ext) u')
    /\ m (mkWorld f' c' h u) = (r, mkWorld f' c' (h ++ ext) u').

(** The columns [last()] aggregates: every column but the key. *)
Inductive Column : Type :=
| col_date
| col_total_vaccinations
| col_people_vaccinated
| col_people_fully_vaccinated
| col_daily_vaccinations.

Definition cell (k : Column) (r : Row) : option Z :=
  match k with
  | col_date => date r
  | col_total_vaccinations => total_vaccinations r
  | col_people_vaccinated => people_vaccinated r
  | col_people_fully_vaccinated => people_fully_vaccinated r
  | col_daily_vaccinations => daily_vaccinations r
  end.

(** The order of the group keys. *)
Definition key_le (a b : Row) : Prop := (country a <=? country b)%string = true.



Local Abbreviation ts := Calendar.timestamp_of_date.

(** * Properties *)

(** ** The filter *)

Lemma isin_In (countries : list string) (c : string) :
  isin countries c = true <-> In c countries.
Proof.
  unfold isin. rewrite existsb_exists. split.
  - intros [x [Hin Heq]]. apply String.eqb_eq in Heq. now subst.
  - intros Hin. exists c. split; [assumption | apply String.eqb_refl].
Qed.

Lemma between_spec (lo hi : Z) (d : option Z) :
  between lo hi d = true <-> exists t, d = Some t /\ lo <= t <= hi.
Proof.
  destruct d as [t|]; simpl.
  - rewrite andb_true_iff, !Z.leb_le. split.
    + intros H. exists t. split; [reflexivity | lia].
    + intros [t' [Heq H]]. injection Heq as ->. lia.
  - split; [discriminate | intros [t [H _]]; discriminate].
Qed.

Lemma filter_mask_spec (countries : list string) (lo hi : Z) (r : Row) :
  filter_mask countries lo hi r = true <->
  In (country r) countries /\ exists t, date r = Some t /\ lo <= t <= hi.
Proof.
  unfold filter_mask. now rewrite andb_true_iff, isin_In, between_spec.
Qed.

Lemma count_occ_filter (f : Row -> bool) (l : list Row) (r : Row) :
  f r = true ->
  count_occ Row_eq_dec (filter f l) r = count_occ Row_eq_dec l r.
Proof.
  intros Hr. induction l as [|a l IH]; simpl; [reflexivity|].
  destruct (f a) eqn:Ha; simpl.
  - destruct (Row_eq_dec a r); now rewrite IH.
  - destruct (Row_eq_dec a r) as [->|_]; [congruence | exact IH].
Qed.

(** C1. The filtered view holds exactly the records of the data set whose
    country is among the selected ones and whose date lies between the two
    ends of the interval, both included: a record is in the view if and only
    if it is such a record of the data set, and it is there as many times as
    in the data set. *)
Theorem filtered_df_exact :
  forall (df : DataFrame) (countries : list string)
         (start stop : Calendar.date) (r : Row),
    let lo := Calendar.timestamp_of_date start in
    let hi := Calendar.timestamp_of_date stop in
    (In r (filtered_df df countries lo hi) <->
       In r df /\ In (country r) countries /\
       exists t, date r = Some t /\ lo <= t <= hi)
    /\ (In r (filtered_df df countries lo hi) ->
        count_occ Row_eq_dec (filtered_df df countries lo hi) r
        = count_occ Row_eq_dec df r).
Proof.
  intros df countries start stop r lo hi.
  unfold filtered_df, getitem_mask. split.
  - rewrite filter_In, filter_mask_spec. tauto.
  - intros Hin. apply filter_In in Hin as [_ Hm].
    now apply count_occ_filter.
Qed.

(** ** The numeric view *)

Lemma filter_map_comm {A B : Type} (f : A -> B) (p : B -> bool) (l : list A) :
  filter p (map f l) = map f (filter (fun a => p (f a)) l).
Proof.
  induction l as [|a l IH]; simpl; [reflexivity|].
  destruct (p (f a)); simpl; now rewrite IH.
Qed.


Lemma clean_df_as_filter (fv : DataFrame) :
  clean_df fv = getitem_num_cols (filter numeric_present fv).
Proof.
  unfold clean_df, dropna, getitem_num_cols. now rewrite filter_map_comm.
Qed.



(** ** Grouping *)

Lemma merge_last_blank (r : Row) : merge_last (blank (country r)) r = r.
Proof. destruct r as [c d a b e f]. unfold merge_last, blank; simpl.
  now destruct d, a, b, e, f. Qed.

Lemma country_merge_last (a r : Row) : country (merge_last a r) = country a.
Proof. reflexivity. Qed.

Lemma group_last_snoc (rows : DataFrame) (r : Row) :
  group_last (rows ++ [r]) = upsert r (group_last rows).
Proof. unfold group_last. now rewrite fold_left_app. Qed.

Lemma unique_snoc (l : list string) (x : string) :
  unique (l ++ [x]) =
  if existsb (String.eqb x) (unique l) then unique l else unique l ++ [x].
Proof. unfold unique. now rewrite fold_left_app. Qed.

Lemma group_of_snoc (c : string) (rows : DataFrame) (r : Row) :
  group_of c (rows ++ [r]) =
  group_of c rows ++ (if (country r =? c)%string then [r] else []).
Proof. unfold group_of. rewrite filter_app. simpl. now destruct (country r =? c)%string. Qed.

Lemma lookup_upsert (c : string) (r : Row) (tbl : list Row) :
  lookup c (upsert r tbl) =
  if (country r =? c)%string
  then Some (merge_last (match lookup c tbl with
                         | Some a => a
                         | None => blank c
                         end) r)
  else lookup c tbl.
Proof.
  unfold lookup. induction tbl as [|a t IH]; simpl.
  - destruct (country r =? c)%string eqn:E; [|reflexivity].
    apply String.eqb_eq in E. now subst.
  - destruct (country r =? country a)%string eqn:Era; simpl.
    + apply String.eqb_eq in Era.
      destruct (country a =? c)%string eqn:Eac.
      * rewrite Era, Eac. reflexivity.
      * rewrite Era, Eac. reflexivity.
    + destruct (country a =? c)%string eqn:Eac.
      * apply String.eqb_eq in Eac. subst c. now rewrite Era.
      * exact IH.
Qed.

Lemma keys_upsert (r : Row) (tbl : list Row) :
  map country (upsert r tbl) =
  if existsb (String.eqb (country r)) (map country tbl)
  then map country tbl
  else map country tbl ++ [country r].
Proof.
  induction tbl as [|a t IH]; simpl; [reflexivity|].
  destruct (country r =? country a)%string eqn:E; simpl; [reflexivity|].
  rewrite IH. now destruct (existsb (String.eqb (country r)) (map country t)).
Qed.

(** The keys of the table are the countries of the rows, in order of first
    appearance. *)
Lemma keys_group_last (rows : DataFrame) :
  map country (group_last rows) = unique (map country rows).
Proof.
  induction rows as [|r rows IH] using rev_ind; [reflexivity|].
  rewrite group_last_snoc, keys_upsert, map_app. simpl map.
  now rewrite unique_snoc, IH.
Qed.

Lemma existsb_eqb_In (x : string) (l : list string) :
  existsb (String.eqb x) l = true <-> In x l.
Proof. exact (isin_In l x). Qed.

Lemma unique_In (l : list string) (x : string) : In x (unique l) <-> In x l.
Proof.
  induction l as [|y l IH] using rev_ind; [reflexivity|].
  rewrite unique_snoc, in_app_iff.
  destruct (existsb (String.eqb y) (unique l)) eqn:E.
  - apply existsb_eqb_In in E. rewrite IH. simpl.
    split; [tauto|]. intros [H|[->|[]]]; [assumption | now apply IH].
  - rewrite in_app_iff, IH. reflexivity.
Qed.

Lemma unique_NoDup (l : list string) : NoDup (unique l).
Proof.
  induction l as [|y l IH] using rev_ind; [constructor|].
  rewrite unique_snoc.
  destruct (existsb (String.eqb y) (unique l)) eqn:E; [assumption|].
  apply NoDup_app; [assumption | repeat constructor; intros [] |].
  intros x Hx [<-|[]].
  apply existsb_eqb_In in Hx. congruence.
Qed.

(** The line of a key holds, column by column, what the rows of its group
    leave when they are merged in row order. *)
Lemma lookup_group_last (c : string) (rows : DataFrame) :
  lookup c (group_last rows) =
  match group_of c rows with
  | [] => None
  | g => Some (fold_left merge_last g (blank c))
  end.
Proof.
  induction rows as [|r rows IH] using rev_ind; [reflexivity|].
  rewrite group_last_snoc, lookup_upsert, group_of_snoc, IH.
  destruct (country r =? c)%string.
  - destruct (group_of c rows) as [|x g]; [reflexivity|].
    change ((x :: g) ++ [r]) with (x :: (g ++ [r])).
    cbv beta iota. f_equal.
    change (x :: g ++ [r]) with ((x :: g) ++ [r]).
    now rewrite fold_left_app.
  - now rewrite app_nil_r.
Qed.

Lemma last_snoc {A : Type} (l : list A) (x d : A) : List.last (l ++ [x]) d = x.
Proof. apply last_last. Qed.

Lemma last_valid_snoc {A : Type} (col : list (option A)) (x : option A) :
  last_valid (col ++ [x]) = keep_last (last_valid col) x.
Proof.
  unfold last_valid. rewrite filter_app. simpl.
  destruct x as [v|]; simpl; [apply last_snoc | now rewrite app_nil_r].
Qed.

Lemma fold_keep_last {A : Type} (col : list (option A)) :
  fold_left keep_last col None = last_valid col.
Proof.
  induction col as [|x col IH] using rev_ind; [reflexivity|].
  now rewrite fold_left_app, last_valid_snoc, IH.
Qed.

Lemma fold_merge_last (c : string) (g : DataFrame) :
  fold_left merge_last g (blank c) = last_valid_row c g.
Proof.
  induction g as [|r g IH] using rev_ind; [reflexivity|].
  rewrite fold_left_app. simpl. rewrite IH.
  unfold last_valid_row, merge_last. rewrite !map_app. simpl.
  now rewrite !last_valid_snoc.
Qed.

Lemma lookup_group_last_valid (c : string) (rows : DataFrame) :
  lookup c (group_last rows) =
  match group_of c rows with
  | [] => None
  | g => Some (last_valid_row c g)
  end.
Proof.
  rewrite lookup_group_last.
  destruct (group_of c rows) eqn:E; [reflexivity|].
  now rewrite fold_merge_last.
Qed.

Lemma insert_by_key_perm (a : Row) (l : list Row) :
  Permutation (a :: l) (insert_by_key a l).
Proof.
  induction l as [|h t IH]; simpl; [reflexivity|].
  destruct (country a <=? country h)%string; [reflexivity|].
  rewrite perm_swap. now apply perm_skip.
Qed.

Lemma sort_index_perm (tbl : list Row) : Permutation tbl (sort_index tbl).
Proof.
  induction tbl as [|a t IH]; simpl; [constructor|].
  rewrite <- insert_by_key_perm. now apply perm_skip.
Qed.

Lemma keys_insert_by_key (a : Row) (l : list Row) :
  map country (insert_by_key a l) = insert_string (country a) (map country l).
Proof.
  induction l as [|h t IH]; simpl; [reflexivity|].
  destruct (country a <=? country h)%string; simpl; now rewrite ?IH.
Qed.

Lemma keys_sort_index (tbl : list Row) :
  map country (sort_index tbl) = sorted (map country tbl).
Proof.
  induction tbl as [|a t IH]; simpl; [reflexivity|].
  now rewrite keys_insert_by_key, IH.
Qed.

(** In a table without repeated keys every line is the line of its key. *)
Lemma lookup_self (tbl : list Row) (a : Row) :
  NoDup (map country tbl) -> In a tbl -> lookup (country a) tbl = Some a.
Proof.
  unfold lookup. induction tbl as [|b t IH]; simpl; [intros _ []|].
  intros Hnd Hin. inversion Hnd as [|? ? Hnot Hnd']; subst.
  destruct (country b =? country a)%string eqn:E.
  - destruct Hin as [->|Hin]; [reflexivity|].
    apply String.eqb_eq in E. exfalso. apply Hnot. rewrite E.
    now apply in_map.
  - destruct Hin as [->|Hin]; [now rewrite String.eqb_refl in E | now apply IH].
Qed.

Lemma filter_none {A : Type} (f : A -> bool) (l : list A) :
  (forall x, In x l -> f x = false) -> filter f l = [].
Proof.
  induction l as [|a l IH]; simpl; [reflexivity|]. intros H.
  rewrite (H a (or_introl eq_refl)). apply IH. intros x Hx. apply H. now right.
Qed.

Lemma filter_key_single (l : list Row) (a : Row) :
  NoDup (map country l) -> In a l ->
  filter (fun r => (country r =? country a)%string) l = [a].
Proof.
  induction l as [|b t IH]; simpl; [intros _ []|].
  intros Hnd Hin. inversion Hnd as [|? ? Hnot Hnd']; subst.
  destruct (country b =? country a)%string eqn:E.
  - apply String.eqb_eq in E.
    destruct Hin as [->|Hin].
    + f_equal. apply filter_none. intros x Hx.
      destruct (country x =? country a)%string eqn:Ex; [|reflexivity].
      apply String.eqb_eq in Ex. exfalso. apply Hnot. rewrite <- Ex.
      now apply in_map.
    + exfalso. apply Hnot. rewrite E. now apply in_map.
  - destruct Hin as [->|Hin]; [now rewrite String.eqb_refl in E | now apply IH].
Qed.

Lemma group_last_NoDup (rows : DataFrame) : NoDup (map country (group_last rows)).
Proof. rewrite keys_group_last. apply unique_NoDup. Qed.

Lemma group_of_In (c : string) (rows : DataFrame) (r : Row) :
  In r (group_of c rows) <-> In r rows /\ country r = c.
Proof. unfold group_of. now rewrite filter_In, String.eqb_eq. Qed.

(** Every line of the table is the last-valid line of the group of its key,
    and that group is not empty. *)
Lemma group_last_line (rows : DataFrame) (a : Row) :
  In a (group_last rows) ->
  group_of (country a) rows <> [] /\
  a = last_valid_row (country a) (group_of (country a) rows).
Proof.
  intros Hin.
  pose proof (lookup_self _ _ (group_last_NoDup rows) Hin) as Hl.
  rewrite lookup_group_last_valid in Hl.
  destruct (group_of (country a) rows) eqn:E; [discriminate|].
  split; [discriminate | congruence].
Qed.

Lemma latest_by_NoDup (sort : DataFrame -> DataFrame) (fv : DataFrame) :
  NoDup (map country (latest_by sort fv)).
Proof.
  unfold latest_by, reset_index.
  eapply Permutation_NoDup; [|apply (group_last_NoDup (sort fv))].
  apply Permutation_map, sort_index_perm.
Qed.

Lemma latest_by_In (sort : DataFrame -> DataFrame) (fv : DataFrame) (a : Row) :
  In a (latest_by sort fv) <-> In a (group_last (sort fv)).
Proof.
  unfold latest_by, reset_index. split; apply Permutation_in;
    [symmetry|]; apply sort_index_perm.
Qed.

(** The one-pass grouping computes the last-valid reference, whatever the
    sort is. *)
Lemma latest_by_reference (sort : DataFrame -> DataFrame) (fv : DataFrame) :
  latest_by sort fv = reference_last_valid sort fv.
Proof.
  unfold reference_last_valid.
  rewrite <- keys_group_last, <- keys_sort_index.
  change (sort_index (group_last (sort fv))) with (latest_by sort fv).
  rewrite map_map.
  rewrite <- (map_id (latest_by sort fv)) at 1.
  apply map_ext_in. intros a Ha.
  apply latest_by_In, group_last_line in Ha as [_ Ha]. exact Ha.
Qed.

(** ** Sorting by date *)

Lemma date_le_refl (r : Row) : date_le r r.
Proof. unfold date_le, date_leb. destruct (date r); [apply Z.leb_refl | reflexivity]. Qed.

Lemma date_le_trans : Relation_Definitions.transitive Row date_le.
Proof.
  intros a b c. unfold date_le, date_leb.
  destruct (date a), (date b), (date c); try discriminate; try reflexivity.
  rewrite !Z.leb_le. lia.
Qed.

Lemma date_leb_total (a b : Row) : date_leb a b = false -> date_le b a.
Proof.
  unfold date_le, date_leb.
  destruct (date a), (date b); try discriminate; try reflexivity.
  rewrite Z.leb_gt, Z.leb_le. lia.
Qed.

Lemma date_le_Some (a b : Row) (x y : Z) :
  date a = Some x -> date b = Some y -> date_le a b -> x <= y.
Proof. unfold date_le, date_leb. intros -> ->. apply Z.leb_le. Qed.

Lemma insert_by_date_perm (r : Row) (l : DataFrame) :
  Permutation (r :: l) (insert_by_date r l).
Proof.
  induction l as [|h t IH]; simpl; [reflexivity|].
  destruct (date_leb r h); [reflexivity|].
  rewrite perm_swap. now apply perm_skip.
Qed.

Lemma insert_by_date_sorted (r : Row) (l : DataFrame) :
  Sorted date_le l -> Sorted date_le (insert_by_date r l).
Proof.
  induction l as [|h t IH]; simpl; intros Hs.
  - repeat constructor.
  - destruct (date_leb r h) eqn:E.
    + constructor; [assumption | now constructor].
    + apply Sorted_inv in Hs as [Hs Hhd]. constructor; [now apply IH|].
      destruct t as [|h' t']; simpl.
      * constructor. now apply date_leb_total.
      * destruct (date_leb r h'); constructor.
        -- now apply date_leb_total.
        -- now inversion Hhd.
Qed.

(** The sort the script is run with keeps what [sort_values] promises. *)
Lemma sort_values_sorts : sorts_by_date sort_values.
Proof.
  intros l. split.
  - induction l as [|r l IH]; simpl; [constructor|].
    rewrite <- insert_by_date_perm. now apply perm_skip.
  - induction l as [|r l IH]; simpl; [constructor|].
    now apply insert_by_date_sorted.
Qed.

Lemma StronglySorted_filter {A : Type} (R : A -> A -> Prop) (p : A -> bool)
    (l : list A) :
  StronglySorted R l -> StronglySorted R (filter p l).
Proof.
  induction 1 as [|a l Hs IH Hall]; simpl; [constructor|].
  destruct (p a); [|assumption].
  constructor; [assumption|].
  rewrite Forall_forall in *. intros x Hx. apply Hall.
  now apply filter_In in Hx as [Hx _].
Qed.

Lemma StronglySorted_before {A : Type} (R : A -> A -> Prop) (l1 l2 : list A)
    (x : A) :
  StronglySorted R (l1 ++ x :: l2) -> Forall (fun y => R y x) l1.
Proof.
  induction l1 as [|a l1 IH]; simpl; intros Hs; [constructor|].
  apply StronglySorted_inv in Hs as [Hs Hall]. constructor.
  - rewrite Forall_forall in Hall. apply Hall, in_elt.
  - now apply IH.
Qed.

Lemma last_valid_split (col : Row -> option Z) (g : DataFrame) (v : Z) :
  last_valid (map col g) = Some v ->
  exists g1 r g2,
    g = g1 ++ r :: g2 /\ col r = Some v /\ Forall (fun x => col x = None) g2.
Proof.
  induction g as [|x g IH] using rev_ind; [discriminate|].
  rewrite map_app. simpl. rewrite last_valid_snoc.
  destruct (col x) as [v'|] eqn:E; simpl.
  - intros [= ->]. exists g, x, []. repeat split; [assumption | constructor].
  - intros H. destruct (IH H) as (g1 & r & g2 & -> & Hr & Hall).
    exists g1, r, (g2 ++ [x]). repeat split.
    + now rewrite <- app_assoc.
    + assumption.
    + apply Forall_app. split; [assumption | now repeat constructor].
Qed.

Lemma last_valid_none (col : Row -> option Z) (g : DataFrame) :
  last_valid (map col g) = None <-> (forall r, In r g -> col r = None).
Proof.
  induction g as [|x g IH] using rev_ind.
  - split; [intros _ r [] | reflexivity].
  - rewrite map_app. simpl. rewrite last_valid_snoc.
    destruct (col x) as [v'|] eqn:E; simpl.
    + split; [discriminate|]. intros H.
      rewrite (H x) in E; [discriminate | apply in_elt].
    + rewrite IH. split.
      * intros H r Hr. apply in_app_iff in Hr as [Hr|[<-|[]]]; auto.
      * intros H r Hr. apply H, in_app_iff. now left.
Qed.

Lemma cell_last_valid_row (k : Column) (c : string) (g : DataFrame) :
  cell k (last_valid_row c g) = last_valid (map (cell k) g).
Proof. now destruct k. Qed.

(** In a group in ascending date order, the last valid entry of a column is
    the entry of a row than which no row with an entry is later. *)
Lemma sorted_group_column (k : Column) (g : DataFrame) (v : Z) :
  StronglySorted date_le g ->
  last_valid (map (cell k) g) = Some v ->
  exists r, In r g /\ cell k r = Some v /\
            forall r', In r' g -> cell k r' <> None -> date_le r' r.
Proof.
  intros Hs Hv.
  destruct (last_valid_split _ _ Hv) as (g1 & r & g2 & -> & Hr & Hall).
  exists r. repeat split; [apply in_elt | assumption |].
  intros r' Hin Hne.
  apply in_app_iff in Hin as [Hin|[<-|Hin]].
  - apply StronglySorted_before in Hs. rewrite Forall_forall in Hs. now apply Hs.
  - apply date_le_refl.
  - rewrite Forall_forall in Hall. now rewrite (Hall r' Hin) in Hne.
Qed.

(** The last row of a group in ascending date order is a latest one; when it
    has no missing cell it is the result line of the group. *)
Lemma sorted_group_last (g : DataFrame) :
  StronglySorted date_le g -> g <> [] ->
  exists z, In z g /\ (forall r, In r g -> date_le r z) /\
            (full_row z = true -> last_valid_row (country z) g = z) /\
            (notna (date z) = true -> last_valid (map date g) = date z).
Proof.
  intros Hs Hne.
  destruct (exists_last Hne) as (g' & z & ->).
  exists z. repeat split.
  - apply in_elt.
  - intros r Hin. apply in_app_iff in Hin as [Hin|[<-|[]]].
    + apply StronglySorted_before in Hs. rewrite Forall_forall in Hs. now apply Hs.
    + apply date_le_refl.
  - intros Hfull. unfold full_row in Hfull. rewrite !andb_true_iff in Hfull.
    destruct Hfull as [[[[H1 H2] H3] H4] H5].
    unfold last_valid_row. rewrite !map_app. simpl. rewrite !last_valid_snoc.
    destruct z as [c d a b e f]; simpl in *.
    destruct d, a, b, e, f; try discriminate; reflexivity.
  - intros Hd. rewrite map_app. simpl. rewrite last_valid_snoc.
    now destruct (date z).
Qed.

(** ** Latest row per country *)

Section AnySort.

Variable sort : DataFrame -> DataFrame.
Hypothesis sort_ok : sorts_by_date sort.

Lemma sort_In (fv : DataFrame) (r : Row) : In r (sort fv) <-> In r fv.
Proof.
  destruct (sort_ok fv) as [Hp _]. split; apply Permutation_in;
    [now symmetry | assumption].
Qed.

Lemma group_sort_In (c : string) (fv : DataFrame) (r : Row) :
  In r (group_of c (sort fv)) <-> In r fv /\ country r = c.
Proof. now rewrite group_of_In, sort_In. Qed.

Lemma group_sort_sorted (c : string) (fv : DataFrame) :
  StronglySorted date_le (group_of c (sort fv)).
Proof.
  apply StronglySorted_filter, Sorted_StronglySorted.
  - exact date_le_trans.
  - apply sort_ok.
Qed.

(** A country of the view has one line in the result, the last-valid line of
    its group. *)
Lemma latest_line (c : string) (fv : DataFrame) :
  In c (map country fv) ->
  exists row,
    filter (fun r => (country r =? c)%string) (latest_by sort fv) = [row]
    /\ country row = c
    /\ group_of c (sort fv) <> []
    /\ row = last_valid_row c (group_of c (sort fv)).
Proof.
  intros Hc.
  assert (Hk : In c (map country (group_last (sort fv)))).
  { rewrite keys_group_last, unique_In.
    apply in_map_iff in Hc as (r & <- & Hr). apply in_map, sort_In, Hr. }
  apply in_map_iff in Hk as (a & <- & Ha).
  exists a. split; [|split; [reflexivity|]].
  - apply filter_key_single; [apply latest_by_NoDup | now apply latest_by_In].
  - now apply group_last_line.
Qed.

End AnySort.

(** C2. Whatever ordered rearrangement the sort returns: every country of a
    filtered view has exactly one row in the latest-per-country view, and
    the date of that row is the greatest date of the country's rows in the
    filtered view. *)
Theorem latest_one_row_max_date :
  forall sort : DataFrame -> DataFrame,
    sorts_by_date sort ->
    forall (df : DataFrame) (countries : list string) (start stop : Z)
           (c : string),
      In c (map country (filtered_df df countries start stop)) ->
      exists row dmax,
        filter (fun r => (country r =? c)%string)
               (latest_by sort (filtered_df df countries start stop)) = [row]
        /\ date row = Some dmax
        /\ (exists r, In r (filtered_df df countries start stop)
                      /\ country r = c /\ date r = Some dmax)
        /\ (forall r, In r (filtered_df df countries start stop) ->
                      country r = c ->
                      exists d, date r = Some d /\ d <= dmax).
Proof.
  intros sort Hs df countries start stop c Hc.
  set (fv := filtered_df df countries start stop) in *.
  assert (Hdated : forall r, In r fv -> exists d, date r = Some d).
  { intros r Hr. unfold fv, filtered_df, getitem_mask in Hr.
    apply filter_In in Hr as [_ Hm]. apply filter_mask_spec in Hm.
    destruct Hm as [_ (t & Ht & _)]. now exists t. }
  destruct (latest_line Hs c fv Hc) as (row & Hone & Hcr & Hne & Hrow).
  destruct (sorted_group_last (group_sort_sorted Hs c fv) Hne)
    as (z & Hz & Hmax & _ & Hlast).
  pose proof (proj1 (group_sort_In Hs c fv z) Hz) as [Hzfv Hzc].
  destruct (Hdated z Hzfv) as [dmax Hd].
  exists row, dmax. repeat split.
  - exact Hone.
  - rewrite Hrow. simpl. rewrite Hlast; [assumption | now rewrite Hd].
  - now exists z.
  - intros r Hr Hrc. destruct (Hdated r Hr) as [d Hrd].
    exists d. split; [assumption|].
    apply (@date_le_Some r z d dmax Hrd Hd), Hmax, (group_sort_In Hs). now split.
Qed.

Lemma latest_one_row_max_date_witness :
  sorts_by_date sort_values
  /\ In "A"%string (map country (filtered_df scenario_frame ["A"%string] 18628 18629))
  /\ exists row dmax,
       filter (fun r => (country r =? "A")%string)
              (latest_by sort_values
                 (filtered_df scenario_frame ["A"%string] 18628 18629)) = [row]
       /\ date row = Some dmax
       /\ (exists r, In r (filtered_df scenario_frame ["A"%string] 18628 18629)
                     /\ country r = "A"%string /\ date r = Some dmax)
       /\ (forall r, In r (filtered_df scenario_frame ["A"%string] 18628 18629) ->
                     country r = "A"%string ->
                     exists d, date r = Some d /\ d <= dmax).
Proof.
  split; [exact sort_values_sorts|].
  split; [vm_compute; now left|].
  apply (@latest_one_row_max_date sort_values sort_values_sorts
           scenario_frame ["A"%string] 18628 18629 "A"%string).
  vm_compute. now left.
Defined.

(** On a view whose later record has missing cells the result line is put
    together from two records, and is not the entire last row the reference
    algorithm of the specification returns. *)
Lemma latest_mixes_rows :
  gap_view <> []
  /\ latest gap_view
     = [mkRow "A" (Some 18629) (Some 100) (Some 90) (Some 20) (Some 50)]
  /\ reference_latest gap_view
     = [mkRow "A" (Some 18629) None (Some 90) None (Some 50)]
  /\ latest gap_view <> reference_latest gap_view
  /\ ~ In (mkRow "A" (Some 18629) (Some 100) (Some 90) (Some 20) (Some 50))
          gap_view.
Proof.
  repeat split; try (vm_compute; discriminate).
  vm_compute. intros [H|[H|[]]]; discriminate.
Qed.

(** The same line comes out under every sort that returns the rows in
    ascending date order: the two dates differ. *)
Lemma latest_mixes_rows_any_sort (sort : DataFrame -> DataFrame) :
  sorts_by_date sort ->
  latest_by sort gap_view
  = [mkRow "A" (Some 18629) (Some 100) (Some 90) (Some 20) (Some 50)].
Proof.
  intros Hs. destruct (Hs gap_view) as [Hp Hsorted].
  change gap_view with gap_frame in Hp at 1. unfold gap_frame in Hp.
  unfold latest_by.
  apply Permutation_length_2_inv in Hp as [E|E]; rewrite E in *.
  - reflexivity.
  - apply Sorted_inv in Hsorted as [_ Hhd]. inversion Hhd as [|? ? H]; subst.
    discriminate H.
Qed.

(** C3, amended. Whatever ordered rearrangement the sort returns, the
    latest-per-country view is: sort the rows ascending by date, group by
    country, groups in ascending order of the country, and take of each
    column the last entry of the group that is not missing.  So for a
    country of the view there is one row; an entry of it is missing exactly
    when the column is missing in all rows of the country, and otherwise it
    is the entry of a row of the country than which no row of the country
    with that column present has a later date; and when no row of the
    country has a missing cell, the row is one entire row of the view, one
    with the latest date of the country. *)
Theorem latest_last_valid :
  forall sort : DataFrame -> DataFrame,
    sorts_by_date sort ->
    forall fv : DataFrame,
      latest_by sort fv = reference_last_valid sort fv
      /\ forall c : string,
          In c (map country fv) ->
          exists row,
            filter (fun r => (country r =? c)%string) (latest_by sort fv) = [row]
            /\ country row = c
            /\ (forall k : Column,
                   (cell k row = None <->
                    forall r, In r fv -> country r = c -> cell k r = None)
                   /\ (forall v, cell k row = Some v ->
                         exists r, In r fv /\ country r = c /\ cell k r = Some v
                                   /\ forall r', In r' fv -> country r' = c ->
                                                 cell k r' <> None ->
                                                 date_le r' r))
            /\ ((forall r, In r fv -> country r = c -> full_row r = true) ->
                In row fv
                /\ forall r, In r fv -> country r = c -> date_le r row).
Proof.
  intros sort Hs fv. split; [apply latest_by_reference|].
  intros c Hc.
  destruct (latest_line Hs c fv Hc) as (row & Hone & Hcr & Hne & Hrow).
  pose proof (group_sort_sorted Hs c fv) as Hsorted.
  exists row. split; [exact Hone|]. split; [exact Hcr|]. split.
  - intros k. rewrite Hrow, cell_last_valid_row. split.
    + rewrite last_valid_none. split.
      * intros H r Hr Hrc. apply H, (group_sort_In Hs). now split.
      * intros H r Hr. apply (group_sort_In Hs) in Hr as [Hr Hrc]. now apply H.
    + intros v Hv.
      destruct (sorted_group_column k Hsorted Hv) as (r & Hr & Hrv & Hmax).
      apply (group_sort_In Hs) in Hr as [Hr Hrc].
      exists r. repeat split; try assumption.
      intros r' Hr' Hrc' Hne'. apply Hmax; [|assumption].
      apply (group_sort_In Hs). now split.
  - intros Hfull.
    destruct (sorted_group_last Hsorted Hne) as (z & Hz & Hmax & Hline & _).
    pose proof (proj1 (group_sort_In Hs c fv z) Hz) as [Hzfv Hzc].
    assert (Hrz : row = z).
    { rewrite Hrow. rewrite <- Hzc at 1. apply Hline, Hfull; assumption. }
    split; [now rewrite Hrz|].
    intros r Hr Hrc. rewrite Hrz. apply Hmax, (group_sort_In Hs). now split.
Qed.

Lemma latest_last_valid_witness :
  sorts_by_date sort_values
  /\ In "A"%string (map country gap_view)
  /\ latest_by sort_values gap_view = reference_last_valid sort_values gap_view
  /\ exists row,
       filter (fun r => (country r =? "A")%string)
              (latest_by sort_values gap_view) = [row]
       /\ country row = "A"%string.
Proof.
  destruct (@latest_last_valid sort_values sort_values_sorts gap_view)
    as [Heq Hrows].
  split; [exact sort_values_sorts|].
  assert (Hin : In "A"%string (map country gap_view)) by (vm_compute; now left).
  split; [exact Hin|]. split; [exact Heq|].
  destruct (Hrows "A"%string Hin) as (row & Hone & Hc & _).
  exists row. now split.
Defined.

(** ** The script leaves the file, the cache and its objects alone *)

Lemma frame_safe_ret {A : Type} (a : A) : frame_safe (ret a).
Proof.
  intros f c f' c' h u. exists (Ok a), [], u. simpl. now rewrite app_nil_r.
Qed.

Lemma frame_safe_raise {A : Type} (e : Exn) : frame_safe (@raise A e).
Proof.
  intros f c f' c' h u. exists (Raised e), [], u. unfold raise. simpl.
  now rewrite app_nil_r.
Qed.

Lemma frame_safe_stop {A : Type} : frame_safe (@st_stop A).
Proof.
  intros f c f' c' h u. exists Stopped, [], u. unfold st_stop. simpl.
  now rewrite app_nil_r.
Qed.

Lemma frame_safe_emit (e : Element) : frame_safe (emit e).
Proof.
  intros f c f' c' h u. exists (Ok tt), [], (u ++ [e]). unfold emit. simpl.
  now rewrite app_nil_r.
Qed.

Lemma frame_safe_alloc (o : Obj) : frame_safe (alloc o).
Proof.
  intros f c f' c' h u. exists (Ok (List.length h)), [o], u. now split.
Qed.

Lemma frame_safe_deref (l : nat) : frame_safe (deref l).
Proof.
  intros f c f' c' h u.
  exists (match nth_error h l with
          | Some o => Ok o
          | None => Raised TypeError
          end), [], u.
  unfold deref. simpl. rewrite app_nil_r. now destruct (nth_error h l).
Qed.

Lemma frame_safe_bind {A B : Type} (m : M A) (k : A -> M B) :
  frame_safe m -> (forall a, frame_safe (k a)) -> frame_safe (bind m k).
Proof.
  intros Hm Hk f c f' c' h u.
  destruct (Hm f c f' c' h u) as (r & ext & u1 & E1 & E2).
  unfold bind. rewrite E1, E2.
  destruct r as [a| |e].
  - destruct (Hk a f c f' c' (h ++ ext) u1) as (r2 & ext2 & u2 & E3 & E4).
    exists r2, (ext ++ ext2), u2. rewrite E3, E4. now rewrite app_assoc.
  - exists Stopped, ext, u1. now split.
  - exists (Raised e), ext, u1. now split.
Qed.

Ltac frame_safe_step :=
  first
    [ apply frame_safe_bind
    | apply frame_safe_ret
    | apply frame_safe_raise
    | apply frame_safe_stop
    | apply frame_safe_emit
    | apply frame_safe_alloc
    | apply frame_safe_deref
    | match goal with
      | |- forall _, frame_safe _ => intro
      | |- frame_safe (match ?x with _ => _ end) => destruct x
      end ].

Lemma frame_safe_body (countries : list string) (date_range : list Calendar.date)
    (df : nat) :
  frame_safe (body countries date_range df).
Proof.
  unfold body, filter_part, guard, clean_part, latest_part, render_part,
    header_part, sidebar_part, kpi_part, tab1, tab2, tab3, tab4,
    tab5, tab6, footer_part, frame_op, numframe_op, frame, numframe, getitem,
    python_int.
  repeat frame_safe_step.
Qed.

(** What a run of the body leaves: the file and the cache as they were, the
    objects that were there unchanged. *)
Lemma body_frame (countries : list string) (date_range : list Calendar.date)
    (df : nat) (f : option (list RawRecord)) (c : option DataFrame)
    (h : list Obj) (u : list Element) :
  exists r ext u',
    body countries date_range df (mkWorld f c h u)
    = (r, mkWorld f c (h ++ ext) u').
Proof.
  destruct (frame_safe_body countries date_range df f c f c h u)
    as (r & ext & u' & E & _).
  now exists r, ext, u'.
Qed.

(** ** The loader *)

Lemma to_datetime_ok (col : list (option string)) (w : World) :
  forallb parses col = true ->
  to_datetime col w = (Ok (map timestamp_cell col), w).
Proof.
  induction col as [|c col IH]; simpl; [reflexivity|].
  rewrite andb_true_iff. intros [Hc Hcol].
  unfold bind. destruct c as [s|]; simpl in *.
  - destruct (Calendar.parse_iso s); [|discriminate]. simpl.
    now rewrite (IH Hcol).
  - now rewrite (IH Hcol).
Qed.

Lemma to_datetime_bad (col : list (option string)) (w : World) :
  forallb parses col = false ->
  to_datetime col w = (Raised ValueError, w).
Proof.
  induction col as [|c col IH]; simpl; [discriminate|].
  rewrite andb_false_iff. intros H.
  unfold bind. destruct c as [s|]; simpl in *.
  - destruct (Calendar.parse_iso s); [|reflexivity]. simpl in *.
    destruct H as [H|H]; [discriminate|]. now rewrite (IH H).
  - destruct H as [H|H]; [discriminate|]. now rewrite (IH H).
Qed.

Lemma combine_loaded (rows : list RawRecord) :
  map (fun p => with_date (fst p) (snd p))
      (combine rows (map timestamp_cell (map raw_date rows)))
  = loaded rows.
Proof.
  unfold loaded. induction rows as [|r rows IH]; simpl; [reflexivity|].
  now rewrite IH.
Qed.

Lemma load_data_hit (w : World) (d : DataFrame) :
  cache w = Some d ->
  load_data (rerun w) = (Ok 0%nat, mkWorld (file w) (Some d) [Frame d] []).
Proof.
  intros H. unfold load_data, cache_data, rerun. simpl. now rewrite H.
Qed.

Lemma load_data_missing (w : World) :
  cache w = None -> file w = None ->
  load_data (rerun w)
  = (Stopped, mkWorld None None [] [st_error missing_file_text]).
Proof.
  intros Hc Hf. unfold load_data, cache_data, rerun. simpl. rewrite Hc.
  unfold load_data_body, bind, path_exists. simpl. now rewrite Hf.
Qed.

Lemma load_data_read (w : World) (rows : list RawRecord) :
  cache w = None -> file w = Some rows ->
  forallb parses (map raw_date rows) = true ->
  load_data (rerun w)
  = (Ok 0%nat,
     mkWorld (Some rows) (Some (loaded rows)) [Frame (loaded rows)] []).
Proof.
  intros Hc Hf Hp. unfold load_data, cache_data, rerun. simpl. rewrite Hc.
  unfold load_data_body, bind, path_exists, read_csv. simpl. rewrite Hf. simpl.
  rewrite (to_datetime_ok _ _ Hp). simpl. now rewrite combine_loaded.
Qed.

Lemma load_data_unparsed (w : World) (rows : list RawRecord) :
  cache w = None -> file w = Some rows ->
  forallb parses (map raw_date rows) = false ->
  load_data (rerun w)
  = (Raised ValueError, mkWorld (Some rows) None [RawFrame rows] []).
Proof.
  intros Hc Hf Hp. unfold load_data, cache_data, rerun. simpl. rewrite Hc.
  unfold load_data_body, bind, path_exists, read_csv. simpl. rewrite Hf. simpl.
  now rewrite (to_datetime_bad _ _ Hp).
Qed.

(** Whenever there is a data set to work on, the loader hands it out as a
    new object and the cache holds it from then on. *)
Lemma load_data_dataset (w : World) (d : DataFrame) :
  dataset_of w = Some d ->
  load_data (rerun w) = (Ok 0%nat, mkWorld (file w) (Some d) [Frame d] []).
Proof.
  unfold dataset_of. destruct (cache w) as [d'|] eqn:Hc.
  - intros [= ->]. now apply load_data_hit.
  - destruct (file w) as [rows|] eqn:Hf; [|discriminate].
    destruct (forallb parses (map raw_date rows)) eqn:Hp; [|discriminate].
    intros [= <-]. now apply load_data_read.
Qed.

(** Otherwise the loader does not return, and the cache stays empty. *)
Lemma load_data_no_dataset (w : World) :
  dataset_of w = None ->
  exists w', cache w' = None /\ file w' = file w /\
    (load_data (rerun w) = (Stopped, w')
     \/ exists e, load_data (rerun w) = (Raised e, w')).
Proof.
  unfold dataset_of. destruct (cache w) as [d'|] eqn:Hc; [discriminate|].
  destruct (file w) as [rows|] eqn:Hf.
  - destruct (forallb parses (map raw_date rows)) eqn:Hp; [discriminate|].
    intros _. exists (mkWorld (Some rows) None [RawFrame rows] []).
    split; [reflexivity|]. split; [reflexivity|].
    right. exists ValueError. now apply load_data_unparsed.
  - intros _. exists (mkWorld None None [] [st_error missing_file_text]).
    split; [reflexivity|]. split; [reflexivity|].
    left. now apply load_data_missing.
Qed.

(** ** The body of the script, step by step *)

Lemma interact_dataset (w : World) (d : DataFrame) (countries : list string)
    (date_range : list Calendar.date) :
  dataset_of w = Some d ->
  interact countries date_range w
  = body countries date_range 0 (mkWorld (file w) (Some d) [Frame d] []).
Proof.
  intros H. unfold interact, script, bind. now rewrite (load_data_dataset _ H).
Qed.

Ltac run_script :=
  unfold body, filter_part, guard, clean_part, latest_part, header_part,
    sidebar_part, frame_op, numframe_op, frame, numframe, getitem;
  cbn -[getitem_mask getitem_num_cols dropna sort_values sort_index group_last
        unique sorted date_min date_max nunique firstn render_part].


(** On a view with rows: the numeric view and the latest rows are built, and
    the rest of the page is rendered from them. *)
Lemma body_nonempty (f : option (list RawRecord)) (c : option DataFrame)
    (d : DataFrame) (countries : list string) (d0 d1 : Calendar.date) :
  let fv := filtered_df d countries (Calendar.timestamp_of_date d0)
                        (Calendar.timestamp_of_date d1) in
  fv <> [] ->
  exists page,
    body countries [d0; d1] 0 (mkWorld f c [Frame d] [])
    = (render_part 1 3 6 ;; ret (mkGlobals 0 1 3 6))
        (mkWorld f c
           [Frame d; Frame fv; NumFrame (getitem_num_cols fv);
            NumFrame (clean_df fv); Frame (sort_values fv);
            Frame (sort_index (group_last (sort_values fv)));
            Frame (latest fv)]
           page)
    /\ Forall (fun e => alert e = false) page.
Proof.
  intros fv Hne. run_script.
  fold (filtered_df d countries (Calendar.timestamp_of_date d0)
          (Calendar.timestamp_of_date d1)).
  fold fv. destruct fv as [|r rest] eqn:E; [congruence|].
  cbn -[getitem_mask getitem_num_cols dropna sort_values sort_index group_last
        unique sorted date_min date_max nunique firstn render_part].
  eexists. split; [reflexivity|]. repeat constructor.
Qed.

(** ** Rendering *)



(** On a column without entries the mean is NaN. *)
Lemma series_mean_empty (col : list (option Z)) :
  present col = [] -> series_mean col = NaN.
Proof. intros H. unfold series_mean. now rewrite H. Qed.


Ltac run_cbv :=
  cbv beta iota zeta
      delta [bind emit deref ret raise python_int series_sum nth_error
             heap ui file cache].

Ltac run_render :=
  unfold render_part, kpi_part, tab1, tab2, tab3, tab4, tab5, tab6,
    footer_part, frame, numframe;
  run_cbv.

Section Render.

Variables (f : option (list RawRecord)) (c : option DataFrame).
Variables (o0 o2 o4 o5 : Obj) (fv lat : DataFrame) (cl : list NumRow).
Variable page : list Element.

(** Without a row in the numeric view the page breaks off below the table
    of the third tab: the mean is NaN and [int] raises. *)
Lemma render_raises :
  present (map n_daily_vaccinations cl) = [] ->
  exists page',
    render_part 1 3 6 (mkWorld f c [o0; Frame fv; o2; NumFrame cl; o4; o5; Frame lat] page)
    = (Raised ValueError,
       mkWorld f c [o0; Frame fv; o2; NumFrame cl; o4; o5; Frame lat]
         (page ++ page' ++ [st_subheader "Statistik Deskriptif";
                            st_dataframe_describe cl]))
    /\ Forall (fun e => alert e = false) page'.
Proof.
  intros E. run_render.
  rewrite (series_mean_empty _ E). run_cbv. rewrite <- !app_assoc. simpl app.
  eexists. split.
  - match goal with
    | |- (_, mkWorld _ _ _ (_ ++ ?l)) = _ =>
        change l with (firstn 10 l ++ skipn 10 l)
    end.
    reflexivity.
  - cbn [firstn]. repeat constructor.
Qed.


End Render.

(** ** The guard on an empty view *)



(** ** A numeric view without rows *)

(** C10. Whenever the filtered view has rows and each of them lacks one of
    the four numbers, the numeric view is empty and the run ends in the
    third tab, below the table, with the [ValueError] of [int] on the NaN
    mean: neither the error message nor the warning is on the page. *)
Theorem empty_numeric_view_raises :
  forall (w : World) (d : DataFrame) (countries : list string)
         (d0 d1 : Calendar.date),
    dataset_of w = Some d ->
    filtered_df d countries (ts d0) (ts d1) <> [] ->
    (forall r, In r (filtered_df d countries (ts d0) (ts d1)) ->
               numeric_present r = false) ->
    clean_df (filtered_df d countries (ts d0) (ts d1)) = []
    /\ exists page w',
         interact countries [d0; d1] w = (Raised ValueError, w')
         /\ ui w' = page ++ [st_subheader "Statistik Deskriptif";
                             st_dataframe_describe []]
         /\ Forall (fun e => alert e = false) (ui w').
Proof.
  intros w d countries d0 d1 Hd Hne Hsparse.
  set (fv := filtered_df d countries (ts d0) (ts d1)) in *.
  assert (Hclean : clean_df fv = []).
  { rewrite (clean_df_as_filter fv).
    now rewrite (@filter_none _ numeric_present fv Hsparse). }
  split; [exact Hclean|].
  rewrite (@interact_dataset w d _ _ Hd).
  destruct (@body_nonempty (file w) (Some d) d countries d0 d1 Hne)
    as (page & -> & Hpage).
  fold fv. unfold bind at 1.
  assert (E : present (map n_daily_vaccinations (clean_df fv)) = [])
    by now rewrite Hclean.
  destruct (@render_raises (file w) (Some d) (Frame d)
              (NumFrame (getitem_num_cols fv)) (Frame (sort_values fv))
              (Frame (sort_index (group_last (sort_values fv))))
              fv (latest fv) (clean_df fv) page E)
    as (page' & -> & Hpage').
  rewrite Hclean.
  exists (page ++ page'). eexists. split; [reflexivity|]. simpl ui. split.
  - now rewrite <- !app_assoc.
  - apply Forall_app. split; [assumption|].
    apply Forall_app. split; [assumption | repeat constructor].
Qed.

Lemma empty_numeric_view_raises_witness :
  dataset_of sparse_world = Some sparse_frame
  /\ clean_df (filtered_df sparse_frame ["A"%string]
                 (ts (Calendar.mkdate 2021 1 1)) (ts (Calendar.mkdate 2021 1 2)))
     = []
  /\ exists page w',
       interact ["A"%string] scenario_range sparse_world
       = (Raised ValueError, w')
       /\ ui w' = page ++ [st_subheader "Statistik Deskriptif";
                           st_dataframe_describe []]
       /\ Forall (fun e => alert e = false) (ui w').
Proof.
  split; [reflexivity|].
  apply (@empty_numeric_view_raises sparse_world sparse_frame ["A"%string]
           (Calendar.mkdate 2021 1 1) (Calendar.mkdate 2021 1 2) eq_refl).
  - vm_compute. discriminate.
  - vm_compute. intros r [<-|[<-|[]]]; reflexivity.
Defined.

(** ** The loader and the missing file *)

(** Once a data set is in the cache, the file can go and the loader still
    returns: here the file is absent and no error is shown. *)
Lemma load_data_ignores_missing_file :
  file sparse_world = None
  /\ load_data (rerun sparse_world)
     = (Ok 0%nat, mkWorld None (Some sparse_frame) [Frame sparse_frame] [])
  /\ ~ (forall w : World,
          file w = None <-> exists w', load_data (rerun w) = (Stopped, w')).
Proof.
  split; [reflexivity|]. split; [reflexivity|].
  intros H. destruct (proj1 (H sparse_world) eq_refl) as [w' Hw'].
  discriminate Hw'.
Qed.

(** C6, amended. A call of the loader that the cache does not answer stops
    with the error message if and only if the file is absent; then nothing
    is cached and nothing else of the interaction is run or shown.  When
    the file is there and each of its date cells is empty or an ISO date,
    the call returns the whole data set, line by line with the date parsed,
    and the cache holds it.  A call that the cache answers returns the
    cached data set without looking for the file. *)
Theorem load_data_missing_file :
  forall w : World,
    (cache w = None ->
     (file w = None <->
        load_data (rerun w)
        = (Stopped, mkWorld None None [] [st_error missing_file_text]))
     /\ (file w = None <-> exists w', load_data (rerun w) = (Stopped, w'))
     /\ (file w = None ->
         forall countries date_range,
           interact countries date_range w
           = (Stopped, mkWorld None None [] [st_error missing_file_text]))
     /\ (forall rows,
           file w = Some rows ->
           forallb parses (map raw_date rows) = true ->
           load_data (rerun w)
           = (Ok 0%nat,
              mkWorld (Some rows) (Some (loaded rows)) [Frame (loaded rows)] [])
           /\ List.length (loaded rows) = List.length rows
           /\ forall i r,
                nth_error rows i = Some r ->
                nth_error (loaded rows) i
                = Some (mkRow (raw_country r) (timestamp_cell (raw_date r))
                              (raw_total_vaccinations r)
                              (raw_people_vaccinated r)
                              (raw_people_fully_vaccinated r)
                              (raw_daily_vaccinations r))))
    /\ (forall d,
          cache w = Some d ->
          load_data (rerun w)
          = (Ok 0%nat, mkWorld (file w) (Some d) [Frame d] [])).
Proof.
  intros w. split; [|intros d; apply load_data_hit].
  intros Hc.
  assert (Hpresent : forall rows w',
             file w = Some rows -> load_data (rerun w) <> (Stopped, w')).
  { intros rows w' Hf.
    destruct (forallb parses (map raw_date rows)) eqn:Hp.
    - rewrite (load_data_read w Hc Hf Hp). discriminate.
    - rewrite (load_data_unparsed w Hc Hf Hp). discriminate. }
  split; [|split; [|split]].
  - split; [now apply load_data_missing|].
    destruct (file w) as [rows|] eqn:Hf; [|reflexivity].
    intros H. now destruct (Hpresent rows _ eq_refl H).
  - split.
    + intros Hf. eexists. now apply load_data_missing.
    + destruct (file w) as [rows|] eqn:Hf; [|reflexivity].
      intros [w' H]. now destruct (Hpresent rows w' eq_refl H).
  - intros Hf countries date_range. unfold interact, script, bind.
    now rewrite (load_data_missing w Hc Hf).
  - intros rows Hf Hp. split; [now apply load_data_read|].
    unfold loaded. split; [apply length_map|].
    intros i r Hi. now rewrite nth_error_map, Hi.
Qed.

Lemma load_data_missing_file_witness :
  cache scenario_world = None
  /\ file scenario_world = Some scenario_file
  /\ forallb parses (map raw_date scenario_file) = true
  /\ load_data (rerun scenario_world)
     = (Ok 0%nat,
        mkWorld (Some scenario_file) (Some (loaded scenario_file))
                [Frame (loaded scenario_file)] []).
Proof.
  split; [reflexivity|]. split; [reflexivity|]. split; [reflexivity|].
  destruct (load_data_missing_file scenario_world) as [H _].
  destruct (H eq_refl) as (_ & _ & _ & Hread).
  exact (proj1 (Hread scenario_file eq_refl eq_refl)).
Defined.

(** ** Running the script again *)

Lemma dataset_of_cache (w : World) (d : DataFrame) :
  cache w = Some d -> dataset_of w = Some d.
Proof. unfold dataset_of. now intros ->. Qed.

(** An interaction on a data set leaves it in the cache and in the object
    [df], and leaves the file alone. *)
Lemma interact_keeps (w : World) (d : DataFrame) (countries : list string)
    (date_range : list Calendar.date) :
  dataset_of w = Some d ->
  exists r ext u',
    interact countries date_range w
    = (r, mkWorld (file w) (Some d) (Frame d :: ext) u').
Proof.
  intros Hd. rewrite (@interact_dataset w d _ _ Hd).
  destruct (body_frame countries date_range 0 (file w) (Some d) [Frame d] [])
    as (r & ext & u' & E).
  exists r, ext, u'. exact E.
Qed.

(** The run is a function of the data set and of the choices: two processes
    that work on the same data set give the same result, page and objects,
    whatever their files and caches. *)
Lemma interact_same_dataset (w1 w2 : World) (d : DataFrame)
    (countries : list string) (date_range : list Calendar.date) :
  dataset_of w1 = Some d -> dataset_of w2 = Some d ->
  fst (interact countries date_range w1) = fst (interact countries date_range w2)
  /\ heap (snd (interact countries date_range w1))
     = heap (snd (interact countries date_range w2))
  /\ ui (snd (interact countries date_range w1))
     = ui (snd (interact countries date_range w2)).
Proof.
  intros H1 H2.
  rewrite (@interact_dataset w1 d _ _ H1), (@interact_dataset w2 d _ _ H2).
  destruct (frame_safe_body countries date_range 0
              (file w1) (Some d) (file w2) (Some d) [Frame d] [])
    as (r & ext & u' & -> & ->).
  now repeat split.
Qed.

Lemma interact_twice (w : World) (countries : list string)
    (date_range : list Calendar.date) :
  interact countries date_range (snd (interact countries date_range w))
  = interact countries date_range w.
Proof.
  destruct (dataset_of w) as [d|] eqn:Hd.
  - destruct (@interact_keeps w d countries date_range Hd) as (r & ext & u' & E).
    rewrite E. simpl snd.
    rewrite (@interact_dataset
               (mkWorld (file w) (Some d) (Frame d :: ext) u') d
               countries date_range eq_refl).
    simpl file. rewrite <- (@interact_dataset w d _ _ Hd). exact E.
  - destruct (@load_data_no_dataset w Hd) as (w' & Hc' & Hf' & Hload).
    assert (Hc : cache w = None).
    { unfold dataset_of in Hd. now destruct (cache w). }
    assert (Hre : rerun w' = rerun w).
    { unfold rerun. now rewrite Hc', Hf', Hc. }
    unfold interact, script, bind.
    destruct Hload as [Hload|[e Hload]]; rewrite Hload; simpl snd;
      now rewrite Hre, Hload.
Qed.

(** C7. Running the script a second time with the same choices, nothing
    having changed in between, gives the run of the first time: the same
    result, the same page and the same objects, the three views among them,
    also when the first run was the one that read the file.  And the run is
    the same function of the data set and the choices in every process: the
    three views are [filtered_df], [clean_df] and [latest] of them. *)
Theorem interact_again :
  forall (countries : list string) (date_range : list Calendar.date),
    (forall w : World,
        interact countries date_range (snd (interact countries date_range w))
        = interact countries date_range w)
    /\ (forall (w1 w2 : World) (d : DataFrame),
          dataset_of w1 = Some d -> dataset_of w2 = Some d ->
          fst (interact countries date_range w1)
          = fst (interact countries date_range w2)
          /\ heap (snd (interact countries date_range w1))
             = heap (snd (interact countries date_range w2))
          /\ ui (snd (interact countries date_range w1))
             = ui (snd (interact countries date_range w2))).
Proof.
  intros countries date_range. split.
  - intros w. apply interact_twice.
  - intros w1 w2 d. apply interact_same_dataset.
Qed.

Lemma interact_again_witness :
  interact ["A"%string] scenario_range
           (snd (interact ["A"%string] scenario_range scenario_world))
  = interact ["A"%string] scenario_range scenario_world.
Proof.
  exact (proj1 (interact_again ["A"%string] scenario_range) scenario_world).
Defined.

(** ** The scenario *)

(** C8. On the three records of the scenario, with country A chosen and the
    interval from 2021-01-01 to 2021-01-02, the run goes through, the
    filtered view has exactly two rows, and the latest-per-country view is
    the single row of A with 150, 90 and 25. *)
Theorem scenario_views :
  exists w' : World,
    interact ["A"%string] scenario_range scenario_world
    = (Ok (mkGlobals 0 1 3 6), w')
    /\ view_frame w' 0 = Some scenario_frame
    /\ view_frame w' 1
       = Some (filtered_df scenario_frame ["A"%string]
                 (ts (Calendar.mkdate 2021 1 1)) (ts (Calendar.mkdate 2021 1 2)))
    /\ filtered_df scenario_frame ["A"%string]
         (ts (Calendar.mkdate 2021 1 1)) (ts (Calendar.mkdate 2021 1 2))
       = [ mkRow "A" (Some (ts (Calendar.mkdate 2021 1 1)))
                 (Some 100) (Some 80) (Some 20) (Some 10);
           mkRow "A" (Some (ts (Calendar.mkdate 2021 1 2)))
                 (Some 150) (Some 90) (Some 25) (Some 50) ]
    /\ view_frame w' 6
       = Some [mkRow "A" (Some (ts (Calendar.mkdate 2021 1 2)))
                     (Some 150) (Some 90) (Some 25) (Some 50)]
    /\ latest (filtered_df scenario_frame ["A"%string]
                 (ts (Calendar.mkdate 2021 1 1)) (ts (Calendar.mkdate 2021 1 2)))
       = [mkRow "A" (Some (ts (Calendar.mkdate 2021 1 2)))
                (Some 150) (Some 90) (Some 25) (Some 50)].
Proof.
  eexists. split; [vm_compute; reflexivity|].
  repeat split.
Qed.

(** The latest row of the scenario is the same under every sort that
    returns the rows in ascending date order. *)
Lemma scenario_latest_any_sort (sort : DataFrame -> DataFrame) :
  sorts_by_date sort ->
  latest_by sort (filtered_df scenario_frame ["A"%string] 18628 18629)
  = [mkRow "A" (Some 18629) (Some 150) (Some 90) (Some 25) (Some 50)].
Proof.
  intros Hs.
  destruct (Hs (filtered_df scenario_frame ["A"%string] 18628 18629))
    as [Hp Hsorted].
  unfold latest_by.
  apply Permutation_length_2_inv in Hp as [E|E]; rewrite E in *.
  - reflexivity.
  - apply Sorted_inv in Hsorted as [_ Hhd]. inversion Hhd as [|? ? H]; subst.
    discriminate H.
Qed.

(** ** The data set stays as it was loaded *)

Lemma run_keeps_cache (es : list Event) (w : World) (d : DataFrame) :
  cache w = Some d -> cache (run w es) = Some d.
Proof.
  revert w. induction es as [|e es IH]; intros w Hc; [exact Hc|].
  simpl. apply IH. destruct e as [countries date_range|content]; simpl.
  - destruct (@interact_keeps w d countries date_range (@dataset_of_cache w d Hc))
      as (r & ext & u' & ->).
    reflexivity.
  - exact Hc.
Qed.

(** C9. An interaction leaves the loaded data set as it is: at the end of
    the run the object [df] and the cache still hold it, whatever views were
    computed; and after anything that happens to the process later, other
    interactions and changes of the file, every interaction works on that
    same data set. *)
Theorem dataset_never_mutated :
  forall (w : World) (d : DataFrame),
    dataset_of w = Some d ->
    forall (countries : list string) (date_range : list Calendar.date),
      view_frame (snd (interact countries date_range w)) 0 = Some d
      /\ cache (snd (interact countries date_range w)) = Some d
      /\ file (snd (interact countries date_range w)) = file w
      /\ forall (es : list Event) (countries' : list string)
                (date_range' : list Calendar.date),
           dataset_of (run (snd (interact countries date_range w)) es) = Some d
           /\ view_frame
                (snd (interact countries' date_range'
                        (run (snd (interact countries date_range w)) es))) 0
              = Some d
           /\ cache
                (snd (interact countries' date_range'
                        (run (snd (interact countries date_range w)) es)))
              = Some d.
Proof.
  intros w d Hd countries date_range.
  destruct (@interact_keeps w d countries date_range Hd) as (r & ext & u' & ->).
  simpl snd. repeat split.
  - apply dataset_of_cache, run_keeps_cache. reflexivity.
  - match goal with
    | |- view_frame (snd (interact _ _ ?w1)) _ = _ =>
        destruct (@interact_keeps w1 d countries' date_range')
          as (r' & ext' & u'' & ->)
    end.
    + apply dataset_of_cache, run_keeps_cache. reflexivity.
    + reflexivity.
  - match goal with
    | |- cache (snd (interact _ _ ?w1)) = _ =>
        destruct (@interact_keeps w1 d countries' date_range')
          as (r' & ext' & u'' & ->)
    end.
    + apply dataset_of_cache, run_keeps_cache. reflexivity.
    + reflexivity.
Qed.

Lemma dataset_never_mutated_witness :
  dataset_of scenario_world = Some scenario_frame
  /\ view_frame (snd (interact ["A"%string] scenario_range scenario_world)) 0
     = Some scenario_frame
  /\ view_frame
       (snd (interact ["B"%string] scenario_range
               (run (snd (interact ["A"%string] scenario_range scenario_world))
                    [FileChange None; Interaction ["C"%string] scenario_range])))
       0
     = Some scenario_frame.
Proof.
  split; [reflexivity|].
  destruct (@dataset_never_mutated scenario_world scenario_frame eq_refl
              ["A"%string] scenario_range) as (H1 & _ & _ & H2).
  split; [exact H1|].
  exact (proj1 (proj2 (H2 [FileChange None; Interaction ["C"%string] scenario_range]
                          ["B"%string] scenario_range))).
Defined.

(** * More of the script *)

(** ** The date range (lines 54-65) *)



(** ** Choices that select nothing (lines 62-69) *)




(** ** How a run ends (lines 62-69, 78, 154-158) *)





(** ** The side bar (lines 46-57) *)










Lemma insert_string_perm (s : string) (l : list string) :
  Permutation (s :: l) (insert_string s l).
Proof.
  induction l as [|h t IH]; simpl; [reflexivity|].
  destruct (s <=? h)%string; [reflexivity|].
  rewrite perm_swap. now apply perm_skip.
Qed.

Lemma sorted_perm (l : list string) : Permutation l (sorted l).
Proof.
  induction l as [|s l IH]; simpl; [constructor|].
  rewrite <- insert_string_perm. now apply perm_skip.
Qed.







(** ** The default date range (lines 54-57, 62-65) *)

Lemma present_In (col : list (option Z)) (t : Z) :
  In t (present col) <-> In (Some t) col.
Proof.
  unfold present. rewrite in_flat_map. split.
  - intros (x & Hx & Ht). destruct x as [v|]; [|destruct Ht].
    destruct Ht as [->|[]]. exact Hx.
  - intros H. exists (Some t). split; [exact H | now left].
Qed.

Lemma fold_min_spec (l : list Z) (v : Z) :
  In (fold_left Z.min l v) (v :: l)
  /\ forall t, In t (v :: l) -> fold_left Z.min l v <= t.
Proof.
  revert v. induction l as [|x l IH]; intros v; simpl.
  - split; [now left | intros t [<-|[]]; lia].
  - destruct (IH (Z.min v x)) as [Hin Hle]. split.
    + destruct Hin as [E|Hin]; [|now right; right].
      rewrite <- E. destruct (Z.min_spec v x) as [[_ ->]|[_ ->]]; auto.
    + intros t [Ht|[Ht|Ht]].
      * specialize (Hle (Z.min v x) (or_introl eq_refl)). lia.
      * specialize (Hle (Z.min v x) (or_introl eq_refl)). lia.
      * apply Hle. now right.
Qed.

Lemma fold_max_spec (l : list Z) (v : Z) :
  In (fold_left Z.max l v) (v :: l)
  /\ forall t, In t (v :: l) -> t <= fold_left Z.max l v.
Proof.
  revert v. induction l as [|x l IH]; intros v; simpl.
  - split; [now left | intros t [<-|[]]; lia].
  - destruct (IH (Z.max v x)) as [Hin Hle]. split.
    + destruct Hin as [E|Hin]; [|now right; right].
      rewrite <- E. destruct (Z.max_spec v x) as [[_ ->]|[_ ->]]; auto.
    + intros t [Ht|[Ht|Ht]].
      * specialize (Hle (Z.max v x) (or_introl eq_refl)). lia.
      * specialize (Hle (Z.max v x) (or_introl eq_refl)). lia.
      * apply Hle. now right.
Qed.

Lemma date_min_spec (col : list (option Z)) (lo : Z) :
  date_min col = Some lo ->
  In (Some lo) col /\ forall t, In (Some t) col -> lo <= t.
Proof.
  unfold date_min. destruct (present col) as [|v l] eqn:E; [discriminate|].
  intros [= <-]. destruct (fold_min_spec l v) as [Hin Hle].
  rewrite <- E in Hin, Hle. split.
  - now apply present_In.
  - intros t Ht. now apply Hle, present_In.
Qed.

Lemma date_max_spec (col : list (option Z)) (hi : Z) :
  date_max col = Some hi ->
  In (Some hi) col /\ forall t, In (Some t) col -> t <= hi.
Proof.
  unfold date_max. destruct (present col) as [|v l] eqn:E; [discriminate|].
  intros [= <-]. destruct (fold_max_spec l v) as [Hin Hle].
  rewrite <- E in Hin, Hle. split.
  - now apply present_In.
  - intros t Ht. now apply Hle, present_In.
Qed.

(** X5. The range the date picker starts from is the least and the greatest
    date among the records of the data set, both dates of some record; they
    are missing exactly when no record has a date.  Filtering with that
    range drops no record on account of its date: a record is kept exactly
    when its country is selected and it has a date. *)
Theorem default_range_keeps_dated_rows :
  forall (d : DataFrame) (countries : list string),
    (date_min (map date d) = None <-> forall r, In r d -> date r = None)
    /\ (date_max (map date d) = None <-> forall r, In r d -> date r = None)
    /\ forall lo hi : Z,
         date_min (map date d) = Some lo ->
         date_max (map date d) = Some hi ->
         lo <= hi
         /\ (exists r, In r d /\ date r = Some lo)
         /\ (exists r, In r d /\ date r = Some hi)
         /\ filtered_df d countries lo hi
            = filter (fun r => isin countries (country r) && notna (date r)) d.
Proof.
  intros d countries.
  assert (Hnone : present (map date d) = [] <->
                  forall r, In r d -> date r = None).
  { split.
    - intros E r Hr. destruct (date r) as [t|] eqn:Et; [|reflexivity].
      assert (Hin : In t (present (map date d))).
      { apply present_In. rewrite <- Et. now apply in_map. }
      rewrite E in Hin. destruct Hin.
    - intros H. destruct (present (map date d)) as [|t l] eqn:E; [reflexivity|].
      assert (Hin : In t (present (map date d))) by (rewrite E; now left).
      apply present_In, in_map_iff in Hin as (r & Hr & Hin).
      rewrite (H r Hin) in Hr. discriminate. }
  split; [|split].
  - rewrite <- Hnone. unfold date_min.
    destruct (present (map date d)); split; intros; congruence.
  - rewrite <- Hnone. unfold date_max.
    destruct (present (map date d)); split; intros; congruence.
  - intros lo hi Hlo Hhi.
    destruct (date_min_spec _ Hlo) as [Hlo_in Hlo_le].
    destruct (date_max_spec _ Hhi) as [Hhi_in Hhi_le].
    split; [now apply Hlo_le|]. split; [|split].
    + apply in_map_iff in Hlo_in as (r & Hr & Hin). now exists r.
    + apply in_map_iff in Hhi_in as (r & Hr & Hin). now exists r.
    + unfold filtered_df, getitem_mask. apply filter_ext_in.
      intros r Hr. unfold filter_mask. f_equal.
      destruct (date r) as [t|] eqn:Et; [|reflexivity]. simpl.
      assert (Hin : In (Some t) (map date d)).
      { rewrite <- Et. now apply in_map. }
      pose proof (Hlo_le t Hin). pose proof (Hhi_le t Hin).
      apply andb_true_iff. rewrite !Z.leb_le. lia.
Qed.

Lemma default_range_keeps_dated_rows_witness :
  filtered_df scenario_frame ["B"%string] 18628 18629
  = filter (fun r => isin ["B"%string] (country r) && notna (date r))
           scenario_frame.
Proof.
  destruct (default_range_keeps_dated_rows scenario_frame ["B"%string])
    as (_ & _ & H).
  exact (proj2 (proj2 (proj2 (H 18628 18629 eq_refl eq_refl)))).
Defined.

(** ** The rows of the latest view (lines 81-86, 94) *)

Lemma insert_by_key_Sorted (a : Row) (l : list Row) :
  Sorted key_le l -> Sorted key_le (insert_by_key a l).
Proof.
  unfold key_le. induction l as [|h t IH]; simpl; intros Hs.
  - repeat constructor.
  - destruct (country a <=? country h)%string eqn:E.
    + constructor; [assumption | now constructor].
    + assert (Hha : (country h <=? country a)%string = true).
      { destruct (String.leb_total (country a) (country h)) as [H|H];
          [congruence | exact H]. }
      apply Sorted_inv in Hs as [Hs Hhd]. constructor; [now apply IH|].
      destruct t as [|h' t']; simpl.
      * now constructor.
      * destruct (country a <=? country h')%string; constructor;
          [assumption | now inversion Hhd].
Qed.

Lemma sort_index_Sorted (tbl : list Row) : Sorted key_le (sort_index tbl).
Proof.
  induction tbl as [|a t IH]; simpl; [constructor|].
  now apply insert_by_key_Sorted.
Qed.

Lemma sorted_In (l : list string) (x : string) : In x (sorted l) <-> In x l.
Proof.
  split; apply Permutation_in; [apply Permutation_sym|]; apply sorted_perm.
Qed.

Lemma unique_length_perm (l l' : list string) :
  Permutation l l' -> List.length (unique l) = List.length (unique l').
Proof.
  intros Hp. apply Permutation_length, NoDup_Permutation;
    try apply unique_NoDup.
  intros x. rewrite !unique_In. split; apply Permutation_in;
    [assumption | now symmetry].
Qed.

(** X6. The latest view has its rows in ascending order of the country and
    no country twice.  Under every sort that returns the rows in ascending
    date order its countries are those of the filtered view, so the number
    of its rows is the country count of the first counter, and that count is
    at most the number of countries selected. *)
Theorem latest_rows_by_country :
  forall (sort : DataFrame -> DataFrame) (fv : DataFrame),
    NoDup (map country (latest_by sort fv))
    /\ Sorted key_le (latest_by sort fv)
    /\ (sorts_by_date sort ->
        (forall c, In c (map country (latest_by sort fv))
                   <-> In c (map country fv))
        /\ nunique (map country fv)
           = Z.of_nat (List.length (latest_by sort fv))
        /\ forall (d : DataFrame) (countries : list string) (lo hi : Z),
             fv = filtered_df d countries lo hi ->
             nunique (map country fv) <= Z.of_nat (List.length countries)).
Proof.
  intros sort fv. split; [apply latest_by_NoDup|].
  split; [apply sort_index_Sorted|].
  intros Hs. destruct (Hs fv) as [Hp _].
  assert (Hkeys : map country (latest_by sort fv)
                  = sorted (unique (map country (sort fv)))).
  { unfold latest_by, reset_index. now rewrite keys_sort_index, keys_group_last. }
  split; [|split].
  - intros c. rewrite Hkeys, sorted_In, unique_In. split.
    + apply Permutation_in, Permutation_sym, Permutation_map, Hp.
    + apply Permutation_in, Permutation_map, Hp.
  - unfold nunique. f_equal.
    rewrite <- (length_map country (latest_by sort fv)), Hkeys.
    rewrite <- (Permutation_length (sorted_perm _)).
    apply unique_length_perm. now apply Permutation_map.
  - intros d countries lo hi ->. unfold nunique. apply inj_le.
    apply NoDup_incl_length; [apply unique_NoDup|].
    intros c Hc. apply (proj1 (unique_In _ _)) in Hc.
    apply in_map_iff in Hc as (r & <- & Hr).
    unfold filtered_df, getitem_mask in Hr. apply filter_In in Hr as [_ Hm].
    now apply filter_mask_spec in Hm as [Hm _].
Qed.

Lemma latest_rows_by_country_witness :
  sorts_by_date sort_values
  /\ nunique (map country gap_view)
     = Z.of_nat (List.length (latest_by sort_values gap_view)).
Proof.
  split; [exact sort_values_sorts|].
  destruct (latest_rows_by_country sort_values gap_view) as (_ & _ & H).
  exact (proj1 (proj2 (H sort_values_sorts))).
Defined.

(** ** The pie chart (lines 194-205) *)

Lemma pie_df_In (l : DataFrame) (c : string) (v : Z) :
  In (c, v) (pie_df l) <->
  exists row, In row l /\ country row = c /\ people_fully_vaccinated row = Some v.
Proof.
  unfold pie_df. rewrite in_flat_map. split.
  - intros (row & Hrow & Hin). exists row.
    destruct (people_fully_vaccinated row) as [x|]; [|destruct Hin].
    destruct Hin as [[= <- <-]|[]]. now repeat split.
  - intros (row & Hrow & <- & E). exists row. split; [assumption|].
    rewrite E. now left.
Qed.

Lemma pie_df_keys (l : DataFrame) :
  NoDup (map country l) -> NoDup (map fst (pie_df l)).
Proof.
  induction l as [|r l IH]; simpl; [constructor|].
  intros Hnd. inversion Hnd as [|? ? Hnot Hnd']; subst.
  unfold pie_df in *. simpl.
  destruct (people_fully_vaccinated r) as [v|]; simpl; [|now apply IH].
  constructor; [|now apply IH].
  intros Hin. apply Hnot.
  apply in_map_iff in Hin as ([c x] & Hc & Hin). simpl in Hc. subst c.
  apply pie_df_In in Hin as (row & Hrow & <- & _). now apply in_map.
Qed.

(** X7. Under every sort that returns the rows in ascending date order, the
    pie chart has at most one slice for a country, and it has one exactly
    for the countries of the filtered view that report the number of fully
    vaccinated people in some record; a country that never reports it is
    left out.  The value of the slice is the one of a record of the country
    than which no record of it with that number has a later date. *)
Theorem pie_slices :
  forall sort : DataFrame -> DataFrame,
    sorts_by_date sort ->
    forall fv : DataFrame,
      NoDup (map fst (pie_df (latest_by sort fv)))
      /\ (forall c,
             (exists v, In (c, v) (pie_df (latest_by sort fv)))
             <-> exists r, In r fv /\ country r = c
                           /\ people_fully_vaccinated r <> None)
      /\ (forall c v,
             In (c, v) (pie_df (latest_by sort fv)) ->
             exists r, In r fv /\ country r = c
                       /\ people_fully_vaccinated r = Some v
                       /\ forall r', In r' fv -> country r' = c ->
                                     people_fully_vaccinated r' <> None ->
                                     date_le r' r).
Proof.
  intros sort Hs fv.
  assert (Hrow : forall c row,
             In row (latest_by sort fv) -> country row = c ->
             In c (map country fv)
             /\ people_fully_vaccinated row
                = last_valid (map people_fully_vaccinated
                                  (group_of c (sort fv)))).
  { intros c row Hin Hc.
    assert (Hcfv : In c (map country fv)).
    { apply latest_by_In in Hin.
      assert (Hk : In c (map country (group_last (sort fv))))
        by (rewrite <- Hc; now apply in_map).
      rewrite keys_group_last, unique_In in Hk.
      apply in_map_iff in Hk as (r & <- & Hr).
      apply in_map, (sort_In Hs), Hr. }
    split; [exact Hcfv|].
    apply latest_by_In, group_last_line in Hin as [_ E].
    rewrite Hc in E. now rewrite E. }
  split; [apply pie_df_keys, latest_by_NoDup|]. split.
  - intros c. split.
    + intros (v & Hin). apply pie_df_In in Hin as (row & Hin & Hc & Ev).
      destruct (Hrow c row Hin Hc) as [_ E]. rewrite Ev in E. symmetry in E.
      destruct (@sorted_group_column col_people_fully_vaccinated _ v
                  (group_sort_sorted Hs c fv) E) as (r & Hr & Hrv & _).
      apply (group_sort_In Hs) in Hr as [Hr Hrc].
      exists r. repeat split; try assumption. simpl in Hrv. congruence.
    + intros (r & Hr & Hrc & Hne).
      assert (Hc : In c (map country fv)) by (rewrite <- Hrc; now apply in_map).
      destruct (latest_line Hs c fv Hc) as (row & Hone & Hcr & _ & _).
      assert (Hin : In row (latest_by sort fv)).
      { assert (H : In row [row]) by now left.
        rewrite <- Hone in H. now apply filter_In in H. }
      destruct (Hrow c row Hin Hcr) as [_ E].
      destruct (people_fully_vaccinated row) as [v|] eqn:Ev.
      * exists v. apply pie_df_In. now exists row.
      * exfalso. apply Hne. symmetry in E.
        apply (proj1 (last_valid_none people_fully_vaccinated _) E).
        apply (group_sort_In Hs). now split.
  - intros c v Hin. apply pie_df_In in Hin as (row & Hin & Hc & Ev).
    destruct (Hrow c row Hin Hc) as [_ E]. rewrite Ev in E. symmetry in E.
    destruct (@sorted_group_column col_people_fully_vaccinated _ v
                (group_sort_sorted Hs c fv) E) as (r & Hr & Hrv & Hmax).
    apply (group_sort_In Hs) in Hr as [Hr Hrc].
    exists r. repeat split; try assumption.
    intros r' Hr' Hrc' Hne. apply Hmax; [|exact Hne].
    apply (group_sort_In Hs). now split.
Qed.

Lemma pie_slices_witness :
  sorts_by_date sort_values
  /\ NoDup (map fst (pie_df (latest_by sort_values gap_view))).
Proof.
  split; [exact sort_values_sorts|].
  exact (proj1 (@pie_slices sort_values sort_values_sorts gap_view)).
Defined.

(** ** A load that failed (lines 18-28) *)

(** X8. A load that ended in the missing-file error is not remembered: the
    cache stays empty, so the next interaction looks for the file again.
    When by then the file is there, and its date cells are empty or ISO
    dates, that interaction loads it, works on its data set and caches
    it. *)
Theorem missing_file_is_retried :
  forall (w : World) (countries : list string)
         (date_range : list Calendar.date),
    cache w = None -> file w = None ->
    cache (snd (interact countries date_range w)) = None
    /\ interact countries date_range (snd (interact countries date_range w))
       = (Stopped, mkWorld None None [] [st_error missing_file_text])
    /\ forall (rows : list RawRecord) (countries' : list string)
              (date_range' : list Calendar.date),
         forallb parses (map raw_date rows) = true ->
         view_frame
           (snd (interact countries' date_range'
                   (step (snd (interact countries date_range w))
                         (FileChange (Some rows))))) 0
         = Some (loaded rows)
         /\ cache
              (snd (interact countries' date_range'
                      (step (snd (interact countries date_range w))
                            (FileChange (Some rows)))))
            = Some (loaded rows).
Proof.
  intros w countries date_range Hc Hf.
  assert (E : interact countries date_range w
              = (Stopped, mkWorld None None [] [st_error missing_file_text])).
  { unfold interact, script, bind. now rewrite (load_data_missing w Hc Hf). }
  rewrite E. simpl snd. split; [reflexivity|]. split.
  - unfold interact, script, bind.
    now rewrite (@load_data_missing
                   (mkWorld None None [] [st_error missing_file_text])
                   eq_refl eq_refl).
  - intros rows countries' date_range' Hp. simpl step.
    match goal with
    | |- context [interact _ _ ?w1] =>
        assert (Hd : dataset_of w1 = Some (loaded rows))
          by (unfold dataset_of; simpl; now rewrite Hp);
        destruct (@interact_keeps w1 (loaded rows) countries' date_range' Hd)
          as (r & ext & u' & ->)
    end.
    now split.
Qed.

Lemma missing_file_is_retried_witness :
  cache (snd (interact ["A"%string] scenario_range (mkWorld None None [] [])))
  = None
  /\ view_frame
       (snd (interact ["A"%string] scenario_range
               (step (snd (interact ["A"%string] scenario_range
                             (mkWorld None None [] [])))
                     (FileChange (Some scenario_file))))) 0
     = Some (loaded scenario_file).
Proof.
  destruct (@missing_file_is_retried (mkWorld None None [] []) ["A"%string]
              scenario_range eq_refl eq_refl) as (H1 & _ & H2).
  split; [exact H1|].
  exact (proj1 (H2 scenario_file ["A"%string] scenario_range eq_refl)).
Defined.

(** ** The four numbers of the third tab (lines 154-158) *)

Lemma total_acc (l : list Z) (a : Z) :
  fold_left Z.add l a = a + total l.
Proof.
  unfold total. revert a. induction l as [|x l IH]; intros a; simpl; [lia|].
  rewrite (IH (a + x)), (IH x). lia.
Qed.

Lemma total_bounds (l : list Z) (lo hi : Z) :
  (forall v, In v l -> lo <= v <= hi) ->
  lo * Z.of_nat (List.length l) <= total l <= hi * Z.of_nat (List.length l).
Proof.
  induction l as [|x l IH]; intros H.
  - unfold total. simpl. lia.
  - unfold total. simpl fold_left. rewrite total_acc.
    pose proof (H x (or_introl eq_refl)).
    assert (Hl : forall v, In v l -> lo <= v <= hi)
      by (intros v Hv; apply H; now right).
    specialize (IH Hl). rewrite length_cons, Nat2Z.inj_succ. lia.
Qed.

Lemma insert_Z_perm (x : Z) (l : list Z) : Permutation (x :: l) (insert_Z x l).
Proof.
  induction l as [|h t IH]; simpl; [reflexivity|].
  destruct (x <=? h); [reflexivity|].
  rewrite perm_swap. now apply perm_skip.
Qed.

Lemma sort_Z_perm (l : list Z) : Permutation l (sort_Z l).
Proof.
  induction l as [|x l IH]; simpl; [constructor|].
  rewrite <- insert_Z_perm. now apply perm_skip.
Qed.

(** X9. On a column with at least one entry the four numbers of the third
    tab are all shown, and they are in order: the minimum and the maximum
    are entries of the column and bound every entry, and the mean and the
    median shown, cut to integers, lie between them. *)
Theorem daily_metrics_ordered :
  forall col : list (option Z),
    present col <> [] ->
    exists mean median maxi mini : Z,
      python_int (series_mean col) = ret mean
      /\ python_int (series_median col) = ret median
      /\ python_int (series_max col) = ret maxi
      /\ python_int (series_min col) = ret mini
      /\ In maxi (present col)
      /\ In mini (present col)
      /\ (forall v, In v (present col) -> mini <= v <= maxi)
      /\ mini <= mean <= maxi
      /\ mini <= median <= maxi.
Proof.
  intros col Hne.
  unfold series_mean, series_median, series_max, series_min.
  destruct (present col) as [|v l] eqn:E; [congruence|]. clear Hne.
  destruct (fold_min_spec l v) as [Hmin_in Hmin].
  destruct (fold_max_spec l v) as [Hmax_in Hmax].
  set (mn := fold_left Z.min l v) in *.
  set (mx := fold_left Z.max l v) in *.
  assert (Hb : forall x, In x (v :: l) -> mn <= x <= mx)
    by (intros x Hx; split; [now apply Hmin | now apply Hmax]).
  pose proof (sort_Z_perm (v :: l)) as Hp.
  assert (Hbs : forall x, In x (sort_Z (v :: l)) -> mn <= x <= mx).
  { intros x Hx. apply Hb. now apply (Permutation_in x (Permutation_sym Hp)). }
  assert (Hlen : List.length (sort_Z (v :: l)) = S (List.length l)).
  { now rewrite <- (Permutation_length Hp). }
  cbv zeta. rewrite Hlen.
  set (s := sort_Z (v :: l)) in *.
  set (n := S (List.length l)) in *.
  assert (Hmid : (Nat.div2 n < List.length s)%nat).
  { rewrite Hlen. apply Nat.lt_div2. unfold n. lia. }
  assert (Hmid' : (Nat.div2 n - 1 < List.length s)%nat) by lia.
  pose proof (Hbs _ (nth_In s 0 Hmid)) as B1.
  pose proof (Hbs _ (nth_In s 0 Hmid')) as B2.
  pose proof (total_bounds (v :: l) Hb) as Bt.
  change (List.length (v :: l)) with n in Bt.
  assert (Hpos : Z.pos (Pos.of_nat n) = Z.of_nat n).
  { unfold n. rewrite Nat2Z.inj_succ, <- Pos.of_nat_succ. lia. }
  assert (Hn : 0 < Z.of_nat n) by (unfold n; lia).
  exists (Z.quot (total (v :: l)) (Z.of_nat n)).
  exists (if Nat.odd n
          then nth (Nat.div2 n) s 0
          else Z.quot (nth (Nat.div2 n - 1) s 0 + nth (Nat.div2 n) s 0) 2).
  exists mx, mn.
  split.
  { cbv beta iota delta [python_int Qnum Qden].
    change (List.length (v :: l)) with n. now rewrite Hpos. }
  split.
  { destruct (Nat.odd n); simpl; [now rewrite Z.quot_1_r | reflexivity]. }
  split; [simpl; now rewrite Z.quot_1_r|].
  split; [simpl; now rewrite Z.quot_1_r|].
  split; [exact Hmax_in|]. split; [exact Hmin_in|]. split; [exact Hb|].
  split.
  - split.
    + apply Z.quot_le_lower_bound; [assumption | lia].
    + apply Z.quot_le_upper_bound; [assumption | lia].
  - destruct (Nat.odd n); [exact B1|]. split.
    + apply Z.quot_le_lower_bound; lia.
    + apply Z.quot_le_upper_bound; lia.
Qed.

Lemma daily_metrics_ordered_witness :
  exists mean median maxi mini : Z,
    python_int (series_mean [Some 10; None; Some 50]) = ret mean
    /\ python_int (series_median [Some 10; None; Some 50]) = ret median
    /\ python_int (series_max [Some 10; None; Some 50]) = ret maxi
    /\ python_int (series_min [Some 10; None; Some 50]) = ret mini
    /\ mini <= mean <= maxi
    /\ mini <= median <= maxi.
Proof.
  destruct (@daily_metrics_ordered [Some 10; None; Some 50])
    as (mean & median & maxi & mini & H1 & H2 & H3 & H4 & _ & _ & _ & H5 & H6).
  - simpl. discriminate.
  - now exists mean, median, maxi, mini.
Defined.

(** ** The three totals (lines 95-97) *)



(** ** Filtering a view again (lines 62-65) *)

Lemma filter_twice {A : Type} (f g : A -> bool) (l : list A) :
  filter f (filter g l) = filter (fun x => g x && f x) l.
Proof.
  induction l as [|a l IH]; simpl; [reflexivity|].
  destruct (g a); simpl; [|exact IH].
  destruct (f a); now rewrite IH.
Qed.

(** X11. Filtering a filtered view again is filtering the data set once,
    with the countries selected both times and the intersection of the two
    intervals.  So narrowing the selection gives a part of the view before:
    every row of the narrower view is a row of the wider one. *)
Theorem filtered_df_narrows :
  forall (d : DataFrame) (countries countries' : list string)
         (lo hi lo' hi' : Z),
    filtered_df (filtered_df d countries lo hi) countries' lo' hi'
    = filtered_df d (filter (isin countries') countries)
                  (Z.max lo lo') (Z.min hi hi')
    /\ ((forall c, In c countries' -> In c countries) ->
        lo <= lo' -> hi' <= hi ->
        filtered_df (filtered_df d countries lo hi) countries' lo' hi'
        = filtered_df d countries' lo' hi'
        /\ forall r, In r (filtered_df d countries' lo' hi') ->
                     In r (filtered_df d countries lo hi)).
Proof.
  intros d countries countries' lo hi lo' hi'.
  assert (Hcomp : forall r,
             filter_mask countries lo hi r && filter_mask countries' lo' hi' r
             = filter_mask (filter (isin countries') countries)
                           (Z.max lo lo') (Z.min hi hi') r).
  { intros r. unfold filter_mask.
    assert (Hc : isin countries (country r) && isin countries' (country r)
                 = isin (filter (isin countries') countries) (country r)).
    { apply eq_true_iff_eq. rewrite andb_true_iff, !isin_In, filter_In, isin_In.
      tauto. }
    rewrite <- Hc. destruct (date r) as [t|]; simpl.
    - assert (Hb : (lo <=? t) && (t <=? hi) && ((lo' <=? t) && (t <=? hi'))
                   = (Z.max lo lo' <=? t) && (t <=? Z.min hi hi')).
      { apply eq_true_iff_eq. rewrite !andb_true_iff, !Z.leb_le. lia. }
      rewrite <- Hb.
      destruct (isin countries (country r)), (isin countries' (country r)),
        (lo <=? t), (t <=? hi), (lo' <=? t), (t <=? hi'); reflexivity.
    - now rewrite !andb_false_r. }
  split.
  - unfold filtered_df, getitem_mask. rewrite filter_twice.
    apply filter_ext. exact Hcomp.
  - intros Hsub Hlo Hhi.
    assert (Hmask : forall r,
               filter_mask countries' lo' hi' r = true ->
               filter_mask countries lo hi r = true).
    { intros r Hr. apply filter_mask_spec in Hr as [Hc (t & Ht & Hb)].
      apply filter_mask_spec. split; [now apply Hsub|].
      exists t. split; [assumption | lia]. }
    split.
    + unfold filtered_df, getitem_mask. rewrite filter_twice.
      apply filter_ext. intros r.
      destruct (filter_mask countries' lo' hi' r) eqn:E.
      * now rewrite (Hmask r E).
      * now rewrite andb_false_r.
    + intros r Hr. unfold filtered_df, getitem_mask in *.
      apply filter_In in Hr as [Hin Hm]. apply filter_In. split; auto.
Qed.

Lemma filtered_df_narrows_witness :
  filtered_df (filtered_df scenario_frame ["A"%string; "B"%string] 18628 18629)
              ["A"%string] 18629 18629
  = filtered_df scenario_frame ["A"%string] 18629 18629.
Proof.
  destruct (filtered_df_narrows scenario_frame ["A"%string; "B"%string]
              ["A"%string] 18628 18629 18629 18629) as [_ H].
  apply H.
  - intros c [<-|[]]. now left.
  - lia.
  - lia.
Defined.
